(** * Comment adapters of action-continuous-comments

    A shallow embedding of the language adapters ([genaisrc/src/*.mts]):
    the ast-grep rule objects they build, the sibling walks that collect
    comment nodes, and the comment formatters, together with the edit
    budget of the orchestration loop. *)

From Stdlib Require Import Bool Arith List Lia.
From Stdlib Require Import Ascii String.
Import ListNotations.
Open Scope string_scope.
Open Scope bool_scope.

Set Implicit Arguments.
Set Warnings "-register-all".

(* ================================================================== *)
(** ** JavaScript string primitives used by the adapters *)
(* ================================================================== *)

Module Js.

Definition LF : ascii := "010"%char.
Definition CR : ascii := "013"%char.
Definition nl : string := String LF "".

(** ASCII part of the WhiteSpace and LineTerminator classes
    (what [\s] and [String.prototype.trim] look at). *)
Definition isSpace (c : ascii) : bool :=
  match nat_of_ascii c with
  | 9 | 10 | 11 | 12 | 13 | 32 => true
  | _ => false
  end.

Fixpoint trimStart (s : string) : string :=
  match s with
  | String c s' => if isSpace c then trimStart s' else s
  | EmptyString => EmptyString
  end.

Fixpoint trimEnd (s : string) : string :=
  match s with
  | String c s' =>
      match trimEnd s' with
      | EmptyString => if isSpace c then EmptyString else String c EmptyString
      | t => String c t
      end
  | EmptyString => EmptyString
  end.

Definition trim (s : string) : string := trimEnd (trimStart s).

Fixpoint startsWith (s p : string) : bool :=
  match p with
  | EmptyString => true
  | String a p' =>
      match s with
      | String b s' => Ascii.eqb b a && startsWith s' p'
      | EmptyString => false
      end
  end.

Fixpoint includes (s sub : string) : bool :=
  startsWith s sub ||
  match s with
  | String _ s' => includes s' sub
  | EmptyString => false
  end.

Definition endsWith (s p : string) : bool :=
  Nat.leb (String.length p) (String.length s) &&
  String.eqb (String.substring (String.length s - String.length p)
                               (String.length p) s) p.

Fixpoint join (sep : string) (l : list string) : string :=
  match l with
  | [] => ""
  | [x] => x
  | x :: rest => x ++ sep ++ join sep rest
  end.

(** [splitBy delim s]: [String.prototype.split] with a pattern that has
    no captures.  [delim rest] is the length of the pattern's match at the
    head of [rest] (zero: no match here).  [skip] counts the characters of
    a match still to be consumed; [cur] is the current piece, reversed. *)
Fixpoint rev_string (acc s : string) : string :=
  match s with
  | EmptyString => acc
  | String c s' => rev_string (String c acc) s'
  end.

Fixpoint splitLoop (delim : string -> nat) (s : string) (skip : nat)
         (cur : string) : list string :=
  match s with
  | EmptyString => [rev_string "" cur]
  | String c s' =>
      match skip with
      | S k => splitLoop delim s' k cur
      | O =>
          match delim s with
          | S k => rev_string "" cur :: splitLoop delim s' k ""
          | O => splitLoop delim s' 0 (String c cur)
          end
      end
  end.

Definition splitBy (delim : string -> nat) (s : string) : list string :=
  splitLoop delim s 0 "".

(** The pattern [/\r?\n/g]. *)
Definition newlineAt (s : string) : nat :=
  match s with
  | String c (String d _) =>
      if Ascii.eqb c CR && Ascii.eqb d LF then 2
      else if Ascii.eqb c LF then 1 else 0
  | String c EmptyString => if Ascii.eqb c LF then 1 else 0
  | EmptyString => 0
  end.

(** The pattern [/\\r?\\n/g]: a backslash, an optional letter r, a
    backslash and the letter n -- written characters, not control
    characters. *)
Definition backslash : ascii := "092"%char.

Definition escapedNewlineAt (s : string) : nat :=
  match s with
  | String a (String b (String c rest)) =>
      if Ascii.eqb a backslash && Ascii.eqb b "r" && Ascii.eqb c backslash
         && startsWith rest "n" then 4
      else if Ascii.eqb a backslash && Ascii.eqb b backslash
              && Ascii.eqb c "n" then 3
      else 0
  | _ => 0
  end.

(** The two-character JavaScript string literal ["\n"]: a backslash and
    the letter n. *)
Definition escapedNl : string := String backslash "n".

Definition splitLines : string -> list string := splitBy newlineAt.

Definition nonEmpty (s : string) : bool :=
  match s with EmptyString => false | _ => true end.

End Js.

(* ================================================================== *)
(** ** Syntax trees and node references *)
(* ================================================================== *)

(** A parsed tree as the syntax-tree provider hands it over: every node
    has a kind, is named or anonymous, and covers a slice of the source. *)
Inductive Tree : Type :=
| Tr (tkind : string) (tnamed : bool) (ttext : string) (tchildren : list Tree).

Definition tkind (t : Tree) : string := let 'Tr k _ _ _ := t in k.
Definition tnamed (t : Tree) : bool := let 'Tr _ n _ _ := t in n.
Definition ttext (t : Tree) : string := let 'Tr _ _ x _ := t in x.
Definition tchildren (t : Tree) : list Tree := let 'Tr _ _ _ c := t in c.

(** One step of the way from a node up to the root: the siblings to the
    left (nearest first), the parent's own label, the siblings to the
    right. *)
Record Crumb : Type := mkCrumb {
  lefts : list Tree;
  upKind : string;
  upNamed : bool;
  upText : string;
  rights : list Tree }.

(** [SgNode]: a reference to one node of a tree (subtree plus the way
    up), so that [prev], [parent] and [children] are total functions. *)
Record SgNode : Type := mkNode {
  here : Tree;
  above : list Crumb }.

Definition kind (n : SgNode) : string := tkind (here n).
Definition text (n : SgNode) : string := ttext (here n).
Definition isNamed (n : SgNode) : bool := tnamed (here n).

Definition root (t : Tree) : SgNode := mkNode t [].

(** [node.prev()]: the previous sibling under the same parent. *)
Definition prev (n : SgNode) : option SgNode :=
  match above n with
  | c :: up =>
      match lefts c with
      | l :: ls =>
          Some (mkNode l (mkCrumb ls (upKind c) (upNamed c) (upText c)
                                  (here n :: rights c) :: up))
      | [] => None
      end
  | [] => None
  end.

(** [node.next()]. *)
Definition next (n : SgNode) : option SgNode :=
  match above n with
  | c :: up =>
      match rights c with
      | r :: rs =>
          Some (mkNode r (mkCrumb (here n :: lefts c) (upKind c) (upNamed c)
                                  (upText c) rs :: up))
      | [] => None
      end
  | [] => None
  end.

(** [node.parent()]. *)
Definition parent (n : SgNode) : option SgNode :=
  match above n with
  | c :: up =>
      Some (mkNode (Tr (upKind c) (upNamed c) (upText c)
                       (rev (lefts c) ++ here n :: rights c)) up)
  | [] => None
  end.

(** Position among the siblings, counted from zero, in source order. *)
Definition index (n : SgNode) : nat :=
  match above n with
  | c :: _ => List.length (lefts c)
  | [] => 0
  end.

(** The children of [n], in source order. *)
Fixpoint childrenFrom (k : string) (nm : bool) (tx : string)
         (up : list Crumb) (ls rs : list Tree) : list SgNode :=
  match rs with
  | [] => []
  | r :: rs' =>
      mkNode r (mkCrumb ls k nm tx rs' :: up)
      :: childrenFrom k nm tx up (r :: ls) rs'
  end.

Definition children (n : SgNode) : list SgNode :=
  childrenFrom (kind n) (isNamed n) (text n) (above n) [] (tchildren (here n)).

(** All previous siblings, nearest first ([prev_all]). *)
Fixpoint prevFrom (k : string) (nm : bool) (tx : string) (up : list Crumb)
         (ls rs : list Tree) : list SgNode :=
  match ls with
  | [] => []
  | l :: ls' =>
      mkNode l (mkCrumb ls' k nm tx rs :: up)
      :: prevFrom k nm tx up ls' (l :: rs)
  end.

Definition prevAll (n : SgNode) : list SgNode :=
  match above n with
  | c :: up =>
      prevFrom (upKind c) (upNamed c) (upText c) up (lefts c)
               (here n :: rights c)
  | [] => []
  end.

(** All ancestors, nearest first. *)
Fixpoint ancestorsFrom (t : Tree) (up : list Crumb) : list SgNode :=
  match up with
  | [] => []
  | c :: up' =>
      let p := Tr (upKind c) (upNamed c) (upText c)
                  (rev (lefts c) ++ t :: rights c) in
      mkNode p up' :: ancestorsFrom p up'
  end.

Definition ancestors (n : SgNode) : list SgNode :=
  ancestorsFrom (here n) (above n).

(** Pre-order traversal of the subtree at [n], [n] itself first. *)
Fixpoint dfsTree (t : Tree) (up : list Crumb) {struct t} : list SgNode :=
  mkNode t up ::
  match t with
  | Tr k nm tx cs =>
      (fix kids (ls rs : list Tree) {struct rs} : list SgNode :=
         match rs with
         | [] => []
         | r :: rs' =>
             (dfsTree r (mkCrumb ls k nm tx rs' :: up) ++ kids (r :: ls) rs')%list
         end) [] cs
  end.

Definition dfs (n : SgNode) : list SgNode := dfsTree (here n) (above n).

(** Position among the named siblings, counted from one ([nthChild]). *)
Definition namedIndex (n : SgNode) : option nat :=
  match above n with
  | c :: _ =>
      if isNamed n then Some (S (List.length (filter tnamed (lefts c)))) else None
  | [] => None
  end.

(* ================================================================== *)
(** ** ast-grep rule objects *)
(* ================================================================== *)

(** The patterns the adapters put in [regex]: a start anchor followed by
    literal characters and character ranges, e.g. [^//] and [^[A-Z]]. *)
Inductive RxAtom : Type :=
| RxChar (c : ascii)
| RxRange (lo hi : ascii).

Definition Regex : Type := list RxAtom.

Definition atomMatches (a : RxAtom) (c : ascii) : bool :=
  match a with
  | RxChar d => Ascii.eqb c d
  | RxRange lo hi =>
      Nat.leb (nat_of_ascii lo) (nat_of_ascii c)
      && Nat.leb (nat_of_ascii c) (nat_of_ascii hi)
  end.

Fixpoint regexTest (r : Regex) (s : string) : bool :=
  match r with
  | [] => true
  | a :: r' =>
      match s with
      | String c s' => atomMatches a c && regexTest r' s'
      | EmptyString => false
      end
  end.

Inductive StopBy : Type := neighbor | toEnd.

(** [SgRule]: a rule object.  Every key is optional; a node satisfies the
    object when it satisfies every key that is present.  [stopBy] is read
    when the object is the argument of [inside], [has] or [follows]. *)
Inductive SgRule : Type := mkRule {
  r_kind : option string;
  r_regex : option Regex;
  r_nthChild : option nat;
  r_inside : option SgRule;
  r_has : option SgRule;
  r_follows : option SgRule;
  r_all : option (list SgRule);
  r_any : option (list SgRule);
  r_not : option SgRule;
  r_stopBy : option StopBy }.

(** The empty object literal. *)
Definition emptyRule : SgRule :=
  mkRule None None None None None None None None None None.

(** Object spread, [{ ...a, ...b }]: the keys of [b] win. *)
Definition orElse {A : Type} (later earlier : option A) : option A :=
  match later with
  | Some _ => later
  | None => earlier
  end.

Definition spread (a b : SgRule) : SgRule :=
  mkRule (orElse (r_kind b) (r_kind a))
         (orElse (r_regex b) (r_regex a))
         (orElse (r_nthChild b) (r_nthChild a))
         (orElse (r_inside b) (r_inside a))
         (orElse (r_has b) (r_has a))
         (orElse (r_follows b) (r_follows a))
         (orElse (r_all b) (r_all a))
         (orElse (r_any b) (r_any a))
         (orElse (r_not b) (r_not a))
         (orElse (r_stopBy b) (r_stopBy a)).

Definition spread3 (a b c : SgRule) : SgRule := spread (spread a b) c.

(** Single-key object literals. *)
Definition kindRule (k : string) : SgRule :=
  mkRule (Some k) None None None None None None None None None.
Definition insideRule (r : SgRule) : SgRule :=
  mkRule None None None (Some r) None None None None None None.
Definition hasRule (r : SgRule) : SgRule :=
  mkRule None None None None (Some r) None None None None None.
Definition followsRule (r : SgRule) : SgRule :=
  mkRule None None None None None (Some r) None None None None.
Definition allRule (rs : list SgRule) : SgRule :=
  mkRule None None None None None None (Some rs) None None None.
Definition anyRule (rs : list SgRule) : SgRule :=
  mkRule None None None None None None None (Some rs) None None.
Definition notRule (r : SgRule) : SgRule :=
  mkRule None None None None None None None None (Some r) None.

(** [stopBy] defaults to ["neighbor"]. *)
Definition stopByOf (r : SgRule) : StopBy :=
  match r_stopBy r with
  | Some s => s
  | None => neighbor
  end.

Definition whenSet {A : Type} (o : option A) (f : A -> bool) : bool :=
  match o with
  | Some a => f a
  | None => true
  end.

(** [matches r n]: does node [n] satisfy rule [r]? *)
Fixpoint matches (r : SgRule) (n : SgNode) {struct r} : bool :=
  match r with
  | mkRule k rx nth ins hs fol al an nt _ =>
      whenSet k (fun k' => String.eqb (kind n) k')
      && whenSet rx (fun rx' => regexTest rx' (text n))
      && whenSet nth (fun i =>
           match namedIndex n with
           | Some j => Nat.eqb i j
           | None => false
           end)
      && match ins with
         | Some ri =>
             match stopByOf ri with
             | neighbor =>
                 match parent n with
                 | Some p => matches ri p
                 | None => false
                 end
             | toEnd => existsb (matches ri) (ancestors n)
             end
         | None => true
         end
      && match hs with
         | Some rh =>
             match stopByOf rh with
             | neighbor => existsb (matches rh) (children n)
             | toEnd => existsb (matches rh) (tl (dfs n))
             end
         | None => true
         end
      && match fol with
         | Some rf =>
             match stopByOf rf with
             | neighbor =>
                 match prev n with
                 | Some p => matches rf p
                 | None => false
                 end
             | toEnd => existsb (matches rf) (prevAll n)
             end
         | None => true
         end
      && match al with
         | Some rs => forallb (fun r' => matches r' n) rs
         | None => true
         end
      && match an with
         | Some rs => existsb (fun r' => matches r' n) rs
         | None => true
         end
      && match nt with
         | Some r' => negb (matches r' n)
         | None => true
         end
  end.

(** [node.find({ rule })]: the first node of the pre-order traversal that
    satisfies the rule. *)
Definition find (n : SgNode) (r : SgRule) : option SgNode :=
  List.find (matches r) (dfs n).

(** The three relational keys, as [matches] reads them. *)
Definition insideTest (n : SgNode) (ri : SgRule) : bool :=
  match stopByOf ri with
  | neighbor =>
      match parent n with Some p => matches ri p | None => false end
  | toEnd => existsb (matches ri) (ancestors n)
  end.

Definition hasTest (n : SgNode) (rh : SgRule) : bool :=
  match stopByOf rh with
  | neighbor => existsb (matches rh) (children n)
  | toEnd => existsb (matches rh) (tl (dfs n))
  end.

Definition followsTest (n : SgNode) (rf : SgRule) : bool :=
  match stopByOf rf with
  | neighbor => match prev n with Some p => matches rf p | None => false end
  | toEnd => existsb (matches rf) (prevAll n)
  end.

(** An object literal with several keys, and [{ ...a, ...b, ...c }]. *)
Definition objectOf (fields : list SgRule) : SgRule :=
  fold_left spread fields emptyRule.

Definition regexRule (r : Regex) : SgRule :=
  mkRule None (Some r) None None None None None None None None.
Definition nthChildRule (i : nat) : SgRule :=
  mkRule None None (Some i) None None None None None None None.
Definition stopByRule (s : StopBy) : SgRule :=
  mkRule None None None None None None None None None (Some s).
(** [{ any: o }] where [o] is read from another object's [any] key. *)
Definition anyField (o : option (list SgRule)) : SgRule :=
  mkRule None None None None None None None o None None.

(** [array.filter(Boolean)] on an array of rules and nulls. *)
Fixpoint filterBoolean (l : list (option SgRule)) : list SgRule :=
  match l with
  | [] => []
  | Some r :: l' => r :: filterBoolean l'
  | None :: l' => filterBoolean l'
  end.

(** The patterns that occur in the adapters' rules. *)
Definition rxSlashSlash : Regex := [RxChar "/"; RxChar "/"].
Definition rxSlashSlashSlash : Regex := [RxChar "/"; RxChar "/"; RxChar "/"].
Definition rxCapital : Regex := [RxRange "A" "Z"].

(* ================================================================== *)
(** ** The adapter interface ([langops.mts]) *)
(* ================================================================== *)

Inductive EntityKind : Type :=
| module | type | function | property | variable.

Definition EntityKind_eqb (a b : EntityKind) : bool :=
  match a, b with
  | module, module | type, type | function, function
  | property, property | variable, variable => true
  | _, _ => false
  end.

(** [entityKinds.includes(k)]. *)
Definition includes (entityKinds : list EntityKind) (k : EntityKind) : bool :=
  existsb (EntityKind_eqb k) entityKinds.

(** [cond ? { kind: k } : null]. *)
Definition kindIf (cond : bool) (k : string) : option SgRule :=
  if cond then Some (kindRule k) else None.

Record LanguageOps : Type := mkOps {
  getCommentableNodesMatcher : list EntityKind -> bool -> bool -> SgRule;
  getCommentNodes : SgNode -> option (list SgNode);
  getCommentInsertionNode : SgNode -> option SgNode;
  getCommentText : string -> string;
  getLanguageSystemPromptName : string }.

(** Modelled from the spec: [parsers.unfence] is a helper of the script
    runtime and is not part of the sources; the formatter's first step is
    to "strip any enclosing fenced markers".  A text wrapped in a fence
    opened by three backquotes and the language tag loses the fence lines;
    any other text is returned as it is. *)
Definition fence : string := "```".

Definition unfence (docs language : string) : string :=
  match Js.splitLines (Js.trim docs) with
  | opening :: rest =>
      if String.eqb (Js.trimEnd opening) (fence ++ language)
      then match rev rest with
           | closing :: middle =>
               if String.eqb closing fence
               then Js.join Js.nl (rev middle)
               else docs
           | [] => docs
           end
      else docs
  | [] => docs
  end.

(** The backward walk shared by the leading-comment adapters:
    [[
      let current = node.prev();
      while (current && isComment(current)) {
        commentNodes.unshift(current);
        current = current.prev();
      }
    ]]
    [fuel] bounds the iterations; the walk consumes one previous sibling
    per iteration, so [S (index node)] is always enough. *)
Fixpoint unshiftLoop (isComment : SgNode -> bool) (fuel : nat)
         (current : option SgNode) (commentNodes : list SgNode)
  : list SgNode :=
  match fuel with
  | O => commentNodes
  | S fuel' =>
      match current with
      | Some c =>
          if isComment c
          then unshiftLoop isComment fuel' (prev c) (c :: commentNodes)
          else commentNodes
      | None => commentNodes
      end
  end.

Definition precedingComments (isComment : SgNode -> bool) (node : SgNode)
  : list SgNode :=
  unshiftLoop isComment (S (index node)) (prev node) [].

(** [commentNodes.length > 0 ? commentNodes : null]. *)
Definition orNull (commentNodes : list SgNode) : option (list SgNode) :=
  match commentNodes with
  | [] => None
  | _ => Some commentNodes
  end.

(** [/^\/\*\*.*\*\/$/s.test(t)]: [t] opens with a doc-block marker and
    closes with the block end, the two not overlapping. *)
Definition isDocBlock (t : string) : bool :=
  Js.startsWith t "/**" && Js.endsWith t "*/" && Nat.leb 5 (String.length t).

(** [array.map((line, index) => ...)]. *)
Fixpoint mapIndexed {A B : Type} (f : A -> nat -> B) (i : nat) (l : list A)
  : list B :=
  match l with
  | [] => []
  | x :: l' => f x i :: mapIndexed f (S i) l'
  end.

(** The trimmed, non-empty lines of a text:
    [docs.split(/\r?\n/g).map((line) => line.trim()).filter((line) => line)]. *)
Definition trimmedLines (docs : string) : list string :=
  filter Js.nonEmpty (map Js.trim (Js.splitLines docs)).

(* ================================================================== *)
(** ** The Go adapter ([go.mts]) *)
(* ================================================================== *)

Module Go.

Definition declKindsRaw (entityKinds : list EntityKind) : SgRule :=
  anyRule (filterBoolean
    [ kindIf (includes entityKinds function) "function_declaration";
      kindIf (includes entityKinds function) "method_declaration";
      kindIf (includes entityKinds type) "type_declaration";
      kindIf (includes entityKinds variable) "var_declaration";
      kindIf (includes entityKinds variable) "const_declaration" ]).

Definition withDocComment : SgRule :=
  followsRule (objectOf [kindRule "comment"; regexRule rxSlashSlash;
                         stopByRule neighbor]).

Definition getCommentableNodesMatcher (entityKinds : list EntityKind)
           (withComments exportsOnly : bool) : SgRule :=
  let declKinds :=
    if exportsOnly
    then anyRule
           [ objectOf
               [ anyField (r_any (declKindsRaw entityKinds));
                 hasRule (objectOf [kindRule "identifier";
                                    regexRule rxCapital]) ] ]
    else anyRule [declKindsRaw entityKinds] in
  let inside := insideRule (kindRule "source_file") in
  let docsRule :=
    if withComments then withDocComment else notRule withDocComment in
  objectOf [declKinds; inside; docsRule].

Definition isComment (current : SgNode) : bool :=
  String.eqb (kind current) "comment" && Js.startsWith (text current) "//".

Definition getCommentNodes (node : SgNode) : option (list SgNode) :=
  orNull (precedingComments isComment node).

Definition getCommentInsertionNode (node : SgNode) : option SgNode :=
  Some node.

Definition getLanguageSystemPromptName : string := "".

Definition getCommentText (docs : string) : string :=
  let docs := unfence docs "/" in
  if Js.startsWith (Js.trim docs) "//" then docs
  else Js.join Js.nl (map (fun line => "// " ++ line) (trimmedLines docs)).

End Go.

Definition goOps : LanguageOps :=
  mkOps Go.getCommentableNodesMatcher Go.getCommentNodes
        Go.getCommentInsertionNode Go.getCommentText
        Go.getLanguageSystemPromptName.

(* ================================================================== *)
(** ** The C# adapter ([csharp.mts]) *)
(* ================================================================== *)

Module CSharp.

Definition declKindsRaw (entityKinds : list EntityKind) : SgRule :=
  anyRule (filterBoolean
    [ kindIf (includes entityKinds module) "namespace_declaration";
      kindIf (includes entityKinds type) "delegate_declaration";
      kindIf (includes entityKinds type) "struct_declaration";
      kindIf (includes entityKinds type) "class_declaration";
      kindIf (includes entityKinds type) "interface_declaration";
      kindIf (includes entityKinds type) "enum_declaration";
      kindIf (includes entityKinds property) "field_declaration";
      kindIf (includes entityKinds property) "event_field_declaration";
      kindIf (includes entityKinds property) "property_declaration";
      kindIf (includes entityKinds property) "indexer_declaration";
      kindIf (includes entityKinds property) "enum_member_declaration";
      kindIf (includes entityKinds function) "method_declaration";
      kindIf (includes entityKinds function) "constructor_declaration";
      kindIf (includes entityKinds function) "operator_declaration" ]).

Definition withDocComment : SgRule :=
  followsRule (objectOf [kindRule "comment"; stopByRule neighbor]).

Definition getCommentableNodesMatcher (entityKinds : list EntityKind)
           (withComments exportsOnly : bool) : SgRule :=
  let declKinds := anyRule [declKindsRaw entityKinds] in
  let inside := insideRule (allRule []) in
  let docsRule :=
    if withComments then withDocComment else notRule withDocComment in
  objectOf [declKinds; inside; docsRule].

(** [[
      while (node && node.prev() && node.prev().kind() === "comment") {
        node = node.prev();
        commentNodes.push(node);
      }
    ]] *)
Fixpoint pushLoop (fuel : nat) (node : SgNode) (commentNodes : list SgNode)
  : list SgNode :=
  match fuel with
  | O => commentNodes
  | S fuel' =>
      match prev node with
      | Some p =>
          if String.eqb (kind p) "comment"
          then pushLoop fuel' p (commentNodes ++ [p])%list
          else commentNodes
      | None => commentNodes
      end
  end.

Definition getCommentNodes (node : SgNode) : option (list SgNode) :=
  Some (pushLoop (S (index node)) node []).

Definition getCommentInsertionNode (node : SgNode) : option SgNode :=
  Some node.

Definition getLanguageSystemPromptName : string := "".

Definition getCommentText (docs : string) : string :=
  let docs := unfence docs "*" in
  "/// " ++ Js.join "/// " (map Js.trim (Js.splitLines docs)).

End CSharp.

Definition csharpOps : LanguageOps :=
  mkOps CSharp.getCommentableNodesMatcher CSharp.getCommentNodes
        CSharp.getCommentInsertionNode CSharp.getCommentText
        CSharp.getLanguageSystemPromptName.

(* ================================================================== *)
(** ** The Python adapter ([python.mts]) *)
(* ================================================================== *)

Module Python.

Definition tripleQuote : string :=
  String "034" (String "034" (String "034" "")).

Definition declKinds (entityKinds : list EntityKind) : SgRule :=
  anyRule (filterBoolean
    [ kindIf (includes entityKinds function) "function_definition";
      kindIf (includes entityKinds type) "class_definition" ]).

Definition withDocstring : SgRule :=
  hasRule (objectOf
    [ kindRule "block";
      hasRule (objectOf
        [ nthChildRule 1;
          kindRule "expression_statement";
          hasRule (objectOf [nthChildRule 1; kindRule "string"]) ]) ]).

(** The method declares two parameters only. *)
Definition getCommentableNodesMatcher (entityKinds : list EntityKind)
           (withComments : bool) : SgRule :=
  let inside := insideRule (anyRule [kindRule "module"; kindRule "block"]) in
  let docsRule :=
    if withComments then withDocstring else notRule withDocstring in
  objectOf [declKinds entityKinds; inside; docsRule].

(** [a?.find(r)]. *)
Definition findIn (o : option SgNode) (r : SgRule) : option SgNode :=
  match o with
  | Some n => find n r
  | None => None
  end.

Definition getCommentNodes (decl : SgNode) : option (list SgNode) :=
  let docnode :=
    findIn (findIn (find decl (kindRule "block"))
                   (kindRule "expression_statement"))
           (kindRule "string") in
  match docnode with
  | None => None
  | Some d => Some [d]
  end.

Definition getCommentInsertionNode (node : SgNode) : option SgNode :=
  find node (kindRule "block").

Definition getLanguageSystemPromptName : string := "system.python".

(** The test of [getCommentText]: optional white space, three double
    quotes, any text, and three double quotes at the very end. *)
Definition isDocstring (docs : string) : bool :=
  let t := Js.trimStart docs in
  Js.startsWith t tripleQuote && Js.endsWith t tripleQuote
  && Nat.leb 6 (String.length t).

Definition getCommentText (docs : string) : string :=
  let docs := unfence docs (String "034" "") in
  if negb (isDocstring docs)
  then tripleQuote ++ Js.join Js.nl (Js.splitLines docs)
       ++ (if Js.includes docs Js.nl then Js.nl else "") ++ tripleQuote
  else docs.

End Python.

(** Called through the interface, the Python method receives three
    arguments and reads the first two. *)
Definition pythonOps : LanguageOps :=
  mkOps (fun entityKinds withComments _ =>
           Python.getCommentableNodesMatcher entityKinds withComments)
        Python.getCommentNodes Python.getCommentInsertionNode
        Python.getCommentText Python.getLanguageSystemPromptName.

(* ================================================================== *)
(** ** The Ruby adapter ([ruby.mts]) *)
(* ================================================================== *)

Module Ruby.

Definition declKinds (entityKinds : list EntityKind) : SgRule :=
  anyRule (filterBoolean
    [ kindIf (includes entityKinds function) "method";
      kindIf (includes entityKinds type) "class";
      kindIf (includes entityKinds module) "module" ]).

Definition withDocComment : SgRule :=
  followsRule (objectOf [kindRule "comment"; stopByRule neighbor]).

Definition getCommentableNodesMatcher (entityKinds : list EntityKind)
           (withComments exportsOnly : bool) : SgRule :=
  let docsRule :=
    if withComments then withDocComment else notRule withDocComment in
  objectOf [declKinds entityKinds; docsRule].

Definition isComment (current : SgNode) : bool :=
  String.eqb (kind current) "comment".

Definition getCommentNodes (decl : SgNode) : option (list SgNode) :=
  orNull (precedingComments isComment decl).

Definition getCommentInsertionNode (node : SgNode) : option SgNode :=
  Some node.

Definition getLanguageSystemPromptName : string := "system.ruby".

(** [/^(\s*#.*\n?)+$/m.test(t)].  With the [m] flag the anchors sit at
    line boundaries, so the test succeeds as soon as one line of [t] has
    [#] as its first character that is not white space. *)
Definition lineBreakAt (s : string) : nat :=
  match s with
  | String c _ => if Ascii.eqb c Js.LF || Ascii.eqb c Js.CR then 1 else 0
  | EmptyString => 0
  end.

Definition hasCommentLine (t : string) : bool :=
  existsb (fun line => Js.startsWith (Js.trimStart line) "#")
          (Js.splitBy lineBreakAt t).

Definition getCommentText (docs : string) : string :=
  let docs := unfence docs "#" in
  if hasCommentLine (Js.trim docs) then docs
  else
    let lines :=
      filter (fun line => Js.nonEmpty line || Js.includes docs Js.escapedNl)
             (map Js.trim (Js.splitBy Js.escapedNewlineAt docs)) in
    match lines with
    | [] => "# TODO: Add documentation"
    | _ =>
        Js.join Js.escapedNl
          (map (fun line =>
                  if negb (Js.nonEmpty line) then "#"
                  else if Js.startsWith line "#" then line
                  else "# " ++ line)
               lines)
    end.

End Ruby.

Definition rubyOps : LanguageOps :=
  mkOps Ruby.getCommentableNodesMatcher Ruby.getCommentNodes
        Ruby.getCommentInsertionNode Ruby.getCommentText
        Ruby.getLanguageSystemPromptName.

(* ================================================================== *)
(** ** The C adapter (class [C]) *)
(* ================================================================== *)

Module C.

Definition declKindsRaw (entityKinds : list EntityKind) : SgRule :=
  anyRule (filterBoolean
    [ kindIf (includes entityKinds function) "function_definition";
      kindIf (includes entityKinds type) "type_definition";
      kindIf (includes entityKinds type) "struct_specifier";
      kindIf (includes entityKinds type) "enum_specifier";
      if includes entityKinds variable
      then Some (objectOf [kindRule "declaration";
                           insideRule (kindRule "translation_unit")])
      else None ]).

Definition withDocComment : SgRule :=
  followsRule (objectOf [kindRule "comment"; stopByRule neighbor]).

Definition getCommentableNodesMatcher (entityKinds : list EntityKind)
           (withComments exportsOnly : bool) : SgRule :=
  let declKinds := anyRule [declKindsRaw entityKinds] in
  let inside := insideRule (kindRule "translation_unit") in
  let docsRule :=
    if withComments then withDocComment else notRule withDocComment in
  objectOf [declKinds; inside; docsRule].

Definition isComment (current : SgNode) : bool :=
  String.eqb (kind current) "comment".

Definition getCommentNodes (node : SgNode) : option (list SgNode) :=
  Some (precedingComments isComment node).

Definition getCommentInsertionNode (node : SgNode) : option SgNode :=
  Some node.

Definition getLanguageSystemPromptName : string := "system.c".

Definition formatLine (line : string) (index : nat) : string :=
  if Nat.eqb index 0 && negb (Js.startsWith line "@")
  then " * @brief " ++ line
  else if Js.startsWith line "@param" || Js.startsWith line "@return"
          || Js.startsWith line "@"
  then " * " ++ line
  else if Js.nonEmpty line then " * " ++ line
  else " *".

Definition getCommentText (docs : string) : string :=
  let docs := unfence docs "*" in
  if isDocBlock (Js.trim docs) then docs
  else
    let lines := trimmedLines docs in
    match lines with
    | [line] =>
        if Js.startsWith line "@" then "/** " ++ line ++ " */"
        else "/** @brief " ++ line ++ " */"
    | _ =>
        let formatted := Js.join Js.nl (mapIndexed formatLine 0 lines) in
        "/**" ++ Js.nl ++ formatted ++ Js.nl ++ " */"
    end.

End C.

Definition cOps : LanguageOps :=
  mkOps C.getCommentableNodesMatcher C.getCommentNodes
        C.getCommentInsertionNode C.getCommentText
        C.getLanguageSystemPromptName.

(* ================================================================== *)
(** ** The C++ adapter (class [Cpp]) *)
(* ================================================================== *)

Module Cpp.

Definition scopes : SgRule :=
  anyRule [ kindRule "translation_unit";
            kindRule "namespace_definition";
            kindRule "class_specifier" ].

Definition declKindsRaw (entityKinds : list EntityKind) : SgRule :=
  anyRule (filterBoolean
    [ kindIf (includes entityKinds function) "function_definition";
      kindIf (includes entityKinds function) "function_declarator";
      kindIf (includes entityKinds type) "class_specifier";
      kindIf (includes entityKinds type) "struct_specifier";
      kindIf (includes entityKinds type) "enum_specifier";
      kindIf (includes entityKinds type) "type_definition";
      kindIf (includes entityKinds type) "template_declaration";
      kindIf (includes entityKinds module) "namespace_definition";
      if includes entityKinds variable
      then Some (objectOf [kindRule "declaration"; insideRule scopes])
      else None ]).

Definition withDocComment : SgRule :=
  followsRule (objectOf [kindRule "comment"; stopByRule neighbor]).

Definition getCommentableNodesMatcher (entityKinds : list EntityKind)
           (withComments exportsOnly : bool) : SgRule :=
  let declKinds := anyRule [declKindsRaw entityKinds] in
  let inside := insideRule scopes in
  let docsRule :=
    if withComments then withDocComment else notRule withDocComment in
  objectOf [declKinds; inside; docsRule].

Definition isComment (current : SgNode) : bool :=
  String.eqb (kind current) "comment".

Definition getCommentNodes (node : SgNode) : option (list SgNode) :=
  orNull (precedingComments isComment node).

Definition getCommentInsertionNode (node : SgNode) : option SgNode :=
  Some node.

Definition getLanguageSystemPromptName : string := "".

Definition formatLine (line : string) (index : nat) : string :=
  if Nat.eqb index 0 && negb (Js.startsWith line "@")
  then " * @brief " ++ line
  else if Js.startsWith line "@param" || Js.startsWith line "@return"
          || Js.startsWith line "@throws" || Js.startsWith line "@template"
          || Js.startsWith line "@"
  then " * " ++ line
  else if Js.nonEmpty line then " * " ++ line
  else " *".

Definition getCommentText (docs : string) : string :=
  let docs := unfence docs "*" in
  if isDocBlock (Js.trim docs) then docs
  else
    let lines := trimmedLines docs in
    match lines with
    | [line] =>
        if Js.startsWith line "@" then "/** " ++ line ++ " */"
        else "/** @brief " ++ line ++ " */"
    | _ =>
        let formatted := Js.join Js.nl (mapIndexed formatLine 0 lines) in
        "/**" ++ Js.nl ++ formatted ++ Js.nl ++ " */"
    end.

End Cpp.

Definition cppOps : LanguageOps :=
  mkOps Cpp.getCommentableNodesMatcher Cpp.getCommentNodes
        Cpp.getCommentInsertionNode Cpp.getCommentText
        Cpp.getLanguageSystemPromptName.

(* ================================================================== *)
(** ** The Java adapter (class [Java]) *)
(* ================================================================== *)

Module Java.

Definition declKindsRaw (entityKinds : list EntityKind) : SgRule :=
  anyRule (filterBoolean
    [ kindIf (includes entityKinds type) "class_declaration";
      kindIf (includes entityKinds type) "interface_declaration";
      kindIf (includes entityKinds type) "enum_declaration";
      kindIf (includes entityKinds type) "annotation_type_declaration";
      kindIf (includes entityKinds function) "method_declaration";
      kindIf (includes entityKinds function) "constructor_declaration";
      kindIf (includes entityKinds property) "field_declaration";
      kindIf (includes entityKinds property) "enum_constant" ]).

Definition withDocComment : SgRule :=
  followsRule (objectOf [ anyRule [kindRule "block_comment";
                                   kindRule "line_comment"];
                          stopByRule neighbor ]).

Definition getCommentableNodesMatcher (entityKinds : list EntityKind)
           (withComments exportsOnly : bool) : SgRule :=
  let declKinds :=
    if exportsOnly
    then allRule
           [ declKindsRaw entityKinds;
             hasRule (objectOf [kindRule "modifiers";
                                hasRule (kindRule "public")]) ]
    else declKindsRaw entityKinds in
  let inside :=
    insideRule (anyRule [ kindRule "program"; kindRule "class_body";
                          kindRule "interface_body"; kindRule "enum_body" ]) in
  let docsRule :=
    if withComments then withDocComment else notRule withDocComment in
  objectOf [declKinds; inside; docsRule].

Definition isComment (current : SgNode) : bool :=
  String.eqb (kind current) "block_comment"
  || String.eqb (kind current) "line_comment".

Definition getCommentNodes (node : SgNode) : option (list SgNode) :=
  orNull (precedingComments isComment node).

Definition getCommentInsertionNode (node : SgNode) : option SgNode :=
  Some node.

Definition getLanguageSystemPromptName : string := "system.java".

(** [/^\s*\/\*\*.*.*\*\/\s*$/s.test(docs)] looks at [docs] between its
    leading and trailing white space. *)
Definition getCommentText (docs : string) : string :=
  let docs := unfence docs "*" in
  if negb (isDocBlock (Js.trim docs))
  then "/**" ++ Js.nl ++ " * "
       ++ Js.join (Js.nl ++ " * ") (Js.splitLines docs)
       ++ Js.nl ++ " */"
  else docs.

End Java.

Definition javaOps : LanguageOps :=
  mkOps Java.getCommentableNodesMatcher Java.getCommentNodes
        Java.getCommentInsertionNode Java.getCommentText
        Java.getLanguageSystemPromptName.

(* ================================================================== *)
(** ** The Rust adapter (class [Rust]) *)
(* ================================================================== *)

Module Rust.

Definition declKindsRaw (entityKinds : list EntityKind) : SgRule :=
  anyRule (filterBoolean
    [ kindIf (includes entityKinds function) "function_item";
      kindIf (includes entityKinds type) "struct_item";
      kindIf (includes entityKinds type) "enum_item";
      kindIf (includes entityKinds type) "type_item";
      kindIf (includes entityKinds type) "trait_item";
      kindIf (includes entityKinds type) "impl_item";
      kindIf (includes entityKinds module) "mod_item";
      kindIf (includes entityKinds variable) "const_item";
      kindIf (includes entityKinds variable) "static_item" ]).

Definition withDocComment : SgRule :=
  followsRule (objectOf [kindRule "line_comment";
                         regexRule rxSlashSlashSlash;
                         stopByRule neighbor]).

Definition getCommentableNodesMatcher (entityKinds : list EntityKind)
           (withComments exportsOnly : bool) : SgRule :=
  let declKinds :=
    if exportsOnly
    then anyRule
           [ objectOf [ anyField (r_any (declKindsRaw entityKinds));
                        hasRule (kindRule "visibility_modifier") ] ]
    else anyRule [declKindsRaw entityKinds] in
  let inside :=
    insideRule (anyRule [ kindRule "source_file"; kindRule "mod_item";
                          kindRule "impl_item" ]) in
  let docsRule :=
    if withComments then withDocComment else notRule withDocComment in
  objectOf [declKinds; inside; docsRule].

Definition isComment (current : SgNode) : bool :=
  String.eqb (kind current) "line_comment"
  && Js.startsWith (text current) "///".

Definition getCommentNodes (node : SgNode) : option (list SgNode) :=
  orNull (precedingComments isComment node).

Definition getCommentInsertionNode (node : SgNode) : option SgNode :=
  Some node.

Definition getLanguageSystemPromptName : string := "".

Definition getCommentText (docs : string) : string :=
  let docs := unfence docs "/" in
  if Js.startsWith (Js.trim docs) "///" then docs
  else Js.join Js.nl (map (fun line => "/// " ++ line) (trimmedLines docs)).

End Rust.

Definition rustOps : LanguageOps :=
  mkOps Rust.getCommentableNodesMatcher Rust.getCommentNodes
        Rust.getCommentInsertionNode Rust.getCommentText
        Rust.getLanguageSystemPromptName.

(* ================================================================== *)
(** ** The adapter registry *)
(* ================================================================== *)

Inductive LanguageId : Type :=
| LGo | LCSharp | LPython | LRuby | LC | LCpp | LJava | LRust.

Definition opsOf (l : LanguageId) : LanguageOps :=
  match l with
  | LGo => goOps
  | LCSharp => csharpOps
  | LPython => pythonOps
  | LRuby => rubyOps
  | LC => cOps
  | LCpp => cppOps
  | LJava => javaOps
  | LRust => rustOps
  end.

(** The adapters whose matcher reads its [exportsOnly] parameter: Go
    (capitalised identifier), Java ([public] modifier) and Rust
    ([visibility_modifier]). *)
Definition readsExportsOnly (l : LanguageId) : bool :=
  match l with
  | LGo | LJava | LRust => true
  | _ => false
  end.

(* ================================================================== *)
(** ** The edit budget orchestrator *)
(* ================================================================== *)

Module Orchestrator.

Inductive PromptKind : Type := Generate | Update | Judge.

(** What the generation oracle answers to a generate or update request:
    a text, the "no change" sentinel, or a failure (transport error or
    malformed response). *)
Inductive OracleReply : Type :=
| Text (raw : string)
| NoChange
| Failure.

Inductive EditKind : Type :=
| Insert | Updated | SkipNoChange | SkipBudget | SkipError.

Record EditBudget : Type := mkBudget {
  editsUsed : nat;
  editsMax : nat;
  contextTokensMax : nat }.

Record DeclarationCandidate : Type := mkCandidate {
  node : SgNode;
  entity : EntityKind;
  language : LanguageId;
  hasExistingDoc : bool;
  exported : bool }.

Record EditRecord : Type := mkRecord {
  target : DeclarationCandidate;
  newText : string;
  editKind : EditKind }.

Definition charge (b : EditBudget) : EditBudget :=
  mkBudget (S (editsUsed b)) (editsMax b) (contextTokensMax b).

Definition exhausted (b : EditBudget) : bool :=
  Nat.leb (editsMax b) (editsUsed b).

Section Run.

Variable oracle : PromptKind -> DeclarationCandidate -> OracleReply.

(** Modelled from the spec: the orchestration loop is not among the
    sources.  Per candidate (spec 4.5, 5 and 7): once the budget is
    exhausted no request is issued and the candidate is recorded as
    Skip-Budget; otherwise the oracle is asked (an update for a documented
    candidate, a generation for an undocumented one); the "no change"
    sentinel is recorded as Skip-NoChange and a failure as Skip-Error,
    neither charged; a text is formatted by the candidate's adapter,
    recorded as Insert or Update, and charged to the budget.  The optional
    judging step, whose outcome the spec does not map to a record kind, is
    left out. *)
Definition processCandidate (b : EditBudget) (c : DeclarationCandidate)
  : EditBudget * EditRecord :=
  if exhausted b then (b, mkRecord c "" SkipBudget)
  else
    match oracle (if hasExistingDoc c then Update else Generate) c with
    | NoChange => (b, mkRecord c "" SkipNoChange)
    | Failure => (b, mkRecord c "" SkipError)
    | Text raw =>
        (charge b,
         mkRecord c (getCommentText (opsOf (language c)) raw)
                  (if hasExistingDoc c then Updated else Insert))
    end.

(** Candidates are processed one after the other, in the given order; the
    budget is threaded through. *)
Fixpoint processAll (b : EditBudget) (cs : list DeclarationCandidate)
  : EditBudget * list EditRecord :=
  match cs with
  | [] => (b, [])
  | c :: cs' =>
      let '(b1, r) := processCandidate b c in
      let '(b2, rs) := processAll b1 cs' in
      (b2, r :: rs)
  end.

(** A run: the counter is reset, then every candidate is processed. *)
Definition run (maxEdits maxContext : nat) (cs : list DeclarationCandidate)
  : EditBudget * list EditRecord :=
  processAll (mkBudget 0 maxEdits maxContext) cs.

End Run.

Definition isEdit (r : EditRecord) : bool :=
  match editKind r with
  | Insert | Updated => true
  | _ => false
  end.

Definition hasKind (k : EditKind) (r : EditRecord) : bool :=
  match editKind r, k with
  | Insert, Insert | Updated, Updated | SkipNoChange, SkipNoChange
  | SkipBudget, SkipBudget | SkipError, SkipError => true
  | _, _ => false
  end.

End Orchestrator.

(* ================================================================== *)
(** ** What the rules look at, in plain terms *)
(* ================================================================== *)

Definition isSome {A : Type} (o : option A) : bool :=
  match o with Some _ => true | None => false end.

(** Two objects share no matching key. *)
Definition disjointKeys (a b : SgRule) : bool :=
  negb (isSome (r_kind a) && isSome (r_kind b))
  && negb (isSome (r_regex a) && isSome (r_regex b))
  && negb (isSome (r_nthChild a) && isSome (r_nthChild b))
  && negb (isSome (r_inside a) && isSome (r_inside b))
  && negb (isSome (r_has a) && isSome (r_has b))
  && negb (isSome (r_follows a) && isSome (r_follows b))
  && negb (isSome (r_all a) && isSome (r_all b))
  && negb (isSome (r_any a) && isSome (r_any b))
  && negb (isSome (r_not a) && isSome (r_not b)).

(** The parent exists and its kind is one of [kinds]. *)
Definition parentKindIn (kinds : list string) (n : SgNode) : bool :=
  match parent n with
  | Some p => existsb (String.eqb (kind p)) kinds
  | None => false
  end.

(** The previous sibling exists and passes [test]. *)
Definition prevIs (test : SgNode -> bool) (n : SgNode) : bool :=
  match prev n with
  | Some p => test p
  | None => false
  end.

(** The scope condition each adapter's rule imposes on a matched node:
    the kinds allowed for the immediate parent, any parent at all (C#,
    [inside: { all: [] }]), or nothing (Ruby, no [inside] key). *)
Inductive ScopeRule : Type :=
| ParentKindIn (kinds : list string)
| AnyParent
| Unscoped.

Definition declaredScope (l : LanguageId) : ScopeRule :=
  match l with
  | LGo => ParentKindIn ["source_file"]
  | LC => ParentKindIn ["translation_unit"]
  | LCpp => ParentKindIn ["translation_unit"; "namespace_definition";
                          "class_specifier"]
  | LJava => ParentKindIn ["program"; "class_body"; "interface_body";
                           "enum_body"]
  | LRust => ParentKindIn ["source_file"; "mod_item"; "impl_item"]
  | LPython => ParentKindIn ["module"; "block"]
  | LCSharp => AnyParent
  | LRuby => Unscoped
  end.

Definition inScope (s : ScopeRule) (n : SgNode) : bool :=
  match s with
  | ParentKindIn kinds => parentKindIn kinds n
  | AnyParent => isSome (parent n)
  | Unscoped => true
  end.

(** The test of the backward walk in the adapters that collect with
    [unshift]; C# collects with [push], Python looks into the body. *)
Definition walkTest (l : LanguageId) : option (SgNode -> bool) :=
  match l with
  | LGo => Some Go.isComment
  | LRuby => Some Ruby.isComment
  | LC => Some C.isComment
  | LCpp => Some Cpp.isComment
  | LJava => Some Java.isComment
  | LRust => Some Rust.isComment
  | LCSharp | LPython => None
  end.

(** The language tag each formatter passes to [unfence]. *)
Definition fenceTag (l : LanguageId) : string :=
  match l with
  | LGo | LRust => "/"
  | LCSharp | LC | LCpp | LJava => "*"
  | LPython => String "034" ""
  | LRuby => "#"
  end.

(** The test by which each formatter recognises a text that is already a
    comment of its language.  The C# formatter has no such test; its
    entry is the form its own output has, a text opening with [///]. *)
Definition isCanonical (l : LanguageId) (docs : string) : bool :=
  match l with
  | LGo => Js.startsWith (Js.trim docs) "//"
  | LRust => Js.startsWith (Js.trim docs) "///"
  | LC | LCpp | LJava => isDocBlock (Js.trim docs)
  | LPython => Python.isDocstring docs
  | LRuby => Ruby.hasCommentLine (Js.trim docs)
  | LCSharp => Js.startsWith (Js.trim docs) "///"
  end.

(** A line that survives a join with line breaks and a new split: it
    holds no line feed and does not end in a carriage return. *)
Fixpoint noLineFeed (s : string) : bool :=
  match s with
  | EmptyString => true
  | String c s' => negb (Ascii.eqb c Js.LF) && noLineFeed s'
  end.

Fixpoint endsWithCR (s : string) : bool :=
  match s with
  | EmptyString => false
  | String c EmptyString => Ascii.eqb c Js.CR
  | String _ s' => endsWithCR s'
  end.

Definition wholeLine (s : string) : bool :=
  noLineFeed s && negb (endsWithCR s).

(** Go: the node kinds requested by a list of entity kinds. *)
Definition goRequested (entityKinds : list EntityKind) (n : SgNode) : bool :=
  (includes entityKinds function
   && (String.eqb (kind n) "function_declaration"
       || String.eqb (kind n) "method_declaration"))
  || (includes entityKinds type && String.eqb (kind n) "type_declaration")
  || (includes entityKinds variable
      && (String.eqb (kind n) "var_declaration"
          || String.eqb (kind n) "const_declaration")).

(** Go: the name the rule looks at is a direct child of kind
    [identifier]; it is exported when it begins with a capital letter. *)
Definition beginsWithCapital (s : string) : bool :=
  match s with
  | String c _ => Nat.leb 65 (nat_of_ascii c) && Nat.leb (nat_of_ascii c) 90
  | EmptyString => false
  end.

Definition goExported (n : SgNode) : bool :=
  existsb (fun c => String.eqb (kind c) "identifier"
                    && beginsWithCapital (text c))
          (children n).

Definition goDocumented (n : SgNode) : bool := prevIs Go.isComment n.

(** A list of nodes is a run of consecutive siblings ending right before
    [n]: each node is the previous sibling of the one after it, the last
    one of [n]. *)
Fixpoint adjacentRun (l : list SgNode) (n : SgNode) : Prop :=
  match l with
  | [] => True
  | a :: rest => prev (hd n rest) = Some a /\ adjacentRun rest n
  end.

(** Source order of siblings: strictly increasing positions. *)
Fixpoint inSourceOrder (l : list SgNode) : bool :=
  match l with
  | a :: (b :: _) as rest => Nat.ltb (index a) (index b) && inSourceOrder rest
  | _ => true
  end.

(** Which node kinds each adapter lists for which entity kind, as the
    [entityKinds.includes(...)] lines of its matcher have them. *)
Definition kindTable (l : LanguageId) : list (EntityKind * string) :=
  match l with
  | LGo =>
      [ (function, "function_declaration"); (function, "method_declaration");
        (type, "type_declaration");
        (variable, "var_declaration"); (variable, "const_declaration") ]
  | LCSharp =>
      [ (module, "namespace_declaration");
        (type, "delegate_declaration"); (type, "struct_declaration");
        (type, "class_declaration"); (type, "interface_declaration");
        (type, "enum_declaration");
        (property, "field_declaration");
        (property, "event_field_declaration");
        (property, "property_declaration");
        (property, "indexer_declaration");
        (property, "enum_member_declaration");
        (function, "method_declaration");
        (function, "constructor_declaration");
        (function, "operator_declaration") ]
  | LPython =>
      [ (function, "function_definition"); (type, "class_definition") ]
  | LRuby => [ (function, "method"); (type, "class"); (module, "module") ]
  | LC =>
      [ (function, "function_definition");
        (type, "type_definition"); (type, "struct_specifier");
        (type, "enum_specifier");
        (variable, "declaration") ]
  | LCpp =>
      [ (function, "function_definition"); (function, "function_declarator");
        (type, "class_specifier"); (type, "struct_specifier");
        (type, "enum_specifier"); (type, "type_definition");
        (type, "template_declaration");
        (module, "namespace_definition");
        (variable, "declaration") ]
  | LJava =>
      [ (type, "class_declaration"); (type, "interface_declaration");
        (type, "enum_declaration"); (type, "annotation_type_declaration");
        (function, "method_declaration");
        (function, "constructor_declaration");
        (property, "field_declaration"); (property, "enum_constant") ]
  | LRust =>
      [ (function, "function_item");
        (type, "struct_item"); (type, "enum_item"); (type, "type_item");
        (type, "trait_item"); (type, "impl_item");
        (module, "mod_item");
        (variable, "const_item"); (variable, "static_item") ]
  end.

(** The entity kinds an adapter's matcher asks about. *)
Definition mappedKinds (l : LanguageId) : list EntityKind :=
  map fst (kindTable l).

(** What the matchers of Go, Java and Rust require of a node when
    [exportsOnly] is set: a capitalised [identifier] child, a [modifiers]
    child holding [public], a [visibility_modifier] child.  The other
    adapters require nothing. *)
Definition hasChildOfKind (k : string) (n : SgNode) : bool :=
  existsb (fun c => String.eqb (kind c) k) (children n).

Definition exportMarker (l : LanguageId) (n : SgNode) : bool :=
  match l with
  | LGo => goExported n
  | LJava =>
      existsb (fun m => String.eqb (kind m) "modifiers"
                        && hasChildOfKind "public" m)
              (children n)
  | LRust => hasChildOfKind "visibility_modifier" n
  | _ => true
  end.

(** A text of white space only, and a text without a backslash. *)
Fixpoint allSpace (s : string) : bool :=
  match s with
  | EmptyString => true
  | String c s' => Js.isSpace c && allSpace s'
  end.

Fixpoint noBackslash (s : string) : bool :=
  match s with
  | EmptyString => true
  | String c s' => negb (Ascii.eqb c Js.backslash) && noBackslash s'
  end.

(** The result a walk hands back when it has collected nothing: [null]
    in most adapters, the empty array in C and C#. *)
Definition emptySpan (l : LanguageId) : option (list SgNode) :=
  match l with
  | LC | LCSharp => Some []
  | _ => None
  end.

(** A text that ends in a visible character, possibly followed by one
    blank. *)
Definition endsVisibly (s : string) : Prop :=
  exists (w : string) (a : ascii),
    Js.isSpace a = false
    /\ (s = w ++ String a "" \/ s = w ++ String a " ").

(** The node's kind is listed for one of the requested entity kinds. *)
Definition requestedKind (l : LanguageId) (ks : list EntityKind) (n : SgNode)
  : bool :=
  existsb (fun p => includes ks (fst p) && String.eqb (kind n) (snd p))
          (kindTable l).

(** Python: the declaration has a [block] child whose first named child
    is an [expression_statement] whose first named child is a [string]. *)
Definition isFirstNamed (n : SgNode) : bool :=
  match namedIndex n with
  | Some j => Nat.eqb 1 j
  | None => false
  end.

Definition pythonDocumented (n : SgNode) : bool :=
  existsb
    (fun b =>
       String.eqb (kind b) "block"
       && existsb
            (fun e =>
               isFirstNamed e
               && String.eqb (kind e) "expression_statement"
               && existsb (fun d => isFirstNamed d
                                    && String.eqb (kind d) "string")
                          (children e))
            (children b))
    (children n).

(** What each adapter's rule takes for "documented". *)
Definition documentedAt (l : LanguageId) (n : SgNode) : bool :=
  match l with
  | LGo => prevIs Go.isComment n
  | LRuby => prevIs Ruby.isComment n
  | LC | LCSharp => prevIs C.isComment n
  | LCpp => prevIs Cpp.isComment n
  | LJava => prevIs Java.isComment n
  | LRust => prevIs Rust.isComment n
  | LPython => pythonDocumented n
  end.


Definition csharpDeclaration (k : string) : bool :=
  existsb (String.eqb k) (map snd (kindTable LCSharp)).




(** C#: the kinds the grammar gives to declarations local to a body. *)
Definition csharpLocalKinds : list string :=
  [ "local_function_statement"; "local_declaration_statement" ].



(* ================================================================== *)
(** ** Sample trees *)
(* ================================================================== *)

Definition token (t : string) : Tree := Tr t false t [].
Definition leaf (k t : string) : Tree := Tr k true t [].
Definition inner (k : string) (cs : list Tree) : Tree :=
  Tr k true (Js.join " " (map ttext cs)) cs.

(** The [i]-th child, counted from zero. *)
Definition child (i : nat) (n : SgNode) : option SgNode :=
  nth_error (children n) i.

Fixpoint descend (path : list nat) (n : SgNode) : option SgNode :=
  match path with
  | [] => Some n
  | i :: path' =>
      match child i n with
      | Some c => descend path' c
      | None => None
      end
  end.

(** C#: a method with a two-line documentation comment.
    [[
      class Calc {
        /// Adds two numbers.
        /// Returns the sum.
        int Add(int a, int b) { return a + b; }
      }
    ]] *)
Definition csharpFile : Tree :=
  inner "compilation_unit"
    [ inner "class_declaration"
        [ token "class"; leaf "identifier" "Calc";
          inner "declaration_list"
            [ token "{";
              leaf "comment" "/// Adds two numbers.";
              leaf "comment" "/// Returns the sum.";
              inner "method_declaration"
                [ leaf "predefined_type" "int"; leaf "identifier" "Add";
                  leaf "parameter_list" "(int a, int b)";
                  leaf "block" "{ return a + b; }" ];
              token "}" ] ] ].

(** Go: the same declaration, written [// ...] and [func Add]. *)
Definition goFile : Tree :=
  inner "source_file"
    [ leaf "comment" "// Add adds two numbers.";
      leaf "comment" "// It returns the sum.";
      inner "function_declaration"
        [ token "func"; leaf "identifier" "Add";
          leaf "parameter_list" "(a, b int)";
          leaf "type_identifier" "int";
          leaf "block" "{ return a + b }" ];
      inner "function_declaration"
        [ token "func"; leaf "identifier" "Sub";
          leaf "parameter_list" "(a, b int)";
          leaf "type_identifier" "int";
          leaf "block" "{ return a - b }" ] ].

(** Ruby: a method defined inside another method's body.
    [[
      def outer
        def inner
        end
      end
    ]] *)
Definition rubyFile : Tree :=
  inner "program"
    [ inner "method"
        [ token "def"; leaf "identifier" "outer";
          inner "body_statement"
            [ inner "method"
                [ token "def"; leaf "identifier" "inner"; token "end" ] ];
          token "end" ] ].

(** Python: a function defined inside another function's body.
    [[
      def outer():
          def inner():
              pass
    ]] *)
Definition pythonFile : Tree :=
  inner "module"
    [ inner "function_definition"
        [ token "def"; leaf "identifier" "outer";
          leaf "parameters" "()"; token ":";
          inner "block"
            [ inner "function_definition"
                [ token "def"; leaf "identifier" "inner";
                  leaf "parameters" "()"; token ":";
                  inner "block" [ leaf "pass_statement" "pass" ] ] ] ] ].

(** Python: a function whose body opens with a docstring.
    [[
      def add(a, b):
          (docstring) Adds two numbers.
          return a + b
    ]] *)
Definition pythonDocstring : string :=
  Python.tripleQuote ++ "Adds two numbers." ++ Python.tripleQuote.

Definition pythonDocumentedFile : Tree :=
  inner "module"
    [ inner "function_definition"
        [ token "def"; leaf "identifier" "add";
          leaf "parameters" "(a, b)"; token ":";
          inner "block"
            [ inner "expression_statement"
                [ leaf "string" pythonDocstring ];
              leaf "return_statement" "return a + b" ] ] ].

(** C: a top-level function without a comment. *)
Definition cFile : Tree :=
  inner "translation_unit"
    [ inner "function_definition"
        [ leaf "primitive_type" "int";
          leaf "function_declarator" "add(int a, int b)";
          leaf "compound_statement" "{ return a + b; }" ] ].

Definition nodeAt (t : Tree) (path : list nat) : SgNode :=
  match descend path (root t) with
  | Some n => n
  | None => root t
  end.

Definition csharpMethod : SgNode := nodeAt csharpFile [0; 2; 3].
Definition goAdd : SgNode := nodeAt goFile [2].
Definition goSub : SgNode := nodeAt goFile [3].
Definition rubyInner : SgNode := nodeAt rubyFile [0; 2; 0].
Definition pythonInner : SgNode := nodeAt pythonFile [0; 4; 0].
Definition cFunction : SgNode := nodeAt cFile [0].
Definition pythonAdd : SgNode := nodeAt pythonDocumentedFile [0].

(** Go: exported declarations that are not functions.
    [[
      type Server struct{}
      func (s Server) Start() {}
      var Version = 1
      const MaxConns = 10
    ]]
    The name of a type stands in a [type_spec] as a [type_identifier],
    the name of a method is a [field_identifier], the names of variables
    and constants stand in a [var_spec] or [const_spec]. *)
Definition goDeclarationsFile : Tree :=
  inner "source_file"
    [ inner "type_declaration"
        [ token "type";
          inner "type_spec"
            [ leaf "type_identifier" "Server";
              leaf "struct_type" "struct{}" ] ];
      inner "method_declaration"
        [ token "func"; leaf "parameter_list" "(s Server)";
          leaf "field_identifier" "Start";
          leaf "parameter_list" "()";
          leaf "block" "{}" ];
      inner "var_declaration"
        [ token "var";
          inner "var_spec"
            [ leaf "identifier" "Version"; token "=";
              leaf "expression_list" "1" ] ];
      inner "const_declaration"
        [ token "const";
          inner "const_spec"
            [ leaf "identifier" "MaxConns"; token "=";
              leaf "expression_list" "10" ] ] ].

Definition goServer : SgNode := nodeAt goDeclarationsFile [0].
Definition goStart : SgNode := nodeAt goDeclarationsFile [1].
Definition goVersion : SgNode := nodeAt goDeclarationsFile [2].
Definition goMaxConns : SgNode := nodeAt goDeclarationsFile [3].

(** The nodes that carry the declared names of the four. *)
Definition goDeclaredNames : list SgNode :=
  [ nodeAt goDeclarationsFile [0; 1; 0];
    nodeAt goDeclarationsFile [1; 2];
    nodeAt goDeclarationsFile [2; 1; 0];
    nodeAt goDeclarationsFile [3; 1; 0] ].

(** A deterministic mock oracle: nothing to change for a documented
    declaration, a one-line description for an undocumented one. *)
Definition mockOracle (p : Orchestrator.PromptKind)
           (c : Orchestrator.DeclarationCandidate) : Orchestrator.OracleReply :=
  if Orchestrator.hasExistingDoc c then Orchestrator.NoChange
  else Orchestrator.Text "Adds two numbers.".

Definition undocumented : Orchestrator.DeclarationCandidate :=
  Orchestrator.mkCandidate goSub function LGo false true.

Definition documented : Orchestrator.DeclarationCandidate :=
  Orchestrator.mkCandidate goAdd function LGo true true.

Definition fiveUndocumented : list Orchestrator.DeclarationCandidate :=
  repeat undocumented 5.

(* ================================================================== *)
(** * Properties *)
(* ================================================================== *)

Example trim_ex : Js.trim ("  a b " ++ Js.nl) = "a b".
Proof. reflexivity. Qed.

Example splitLines_ex :
  Js.splitLines ("a" ++ String Js.CR Js.nl ++ "b" ++ Js.nl ++ Js.nl ++ "c")
  = ["a"; "b"; ""; "c"].
Proof. reflexivity. Qed.

Example join_ex : Js.join ", " ["a"; "b"; "c"] = "a, b, c".
Proof. reflexivity. Qed.

Example unfence_ex :
  unfence ("```/" ++ Js.nl ++ "// x" ++ Js.nl ++ "```") "/" = "// x".
Proof. reflexivity. Qed.

Example kinds_ex :
  (kind csharpMethod, kind goAdd, kind rubyInner, kind pythonInner,
   kind cFunction)
  = ("method_declaration", "function_declaration", "method",
     "function_definition", "function_definition").
Proof. reflexivity. Qed.

(* ------------------------------------------------------------------ *)
(** ** Rule objects: one conjunct per key *)
(* ------------------------------------------------------------------ *)

Section RuleAlgebra.

Variable n : SgNode.

Lemma matches_kindRule (k : string) :
  matches (kindRule k) n = String.eqb (kind n) k.
Proof. simpl. now rewrite !andb_true_r. Qed.

Lemma matches_regexRule (r : Regex) :
  matches (regexRule r) n = regexTest r (text n).
Proof. simpl. now rewrite !andb_true_r. Qed.

Lemma matches_anyRule (rs : list SgRule) :
  matches (anyRule rs) n = existsb (fun r => matches r n) rs.
Proof. simpl. now rewrite !andb_true_r. Qed.

Lemma matches_anyField (rs : list SgRule) :
  matches (anyField (Some rs)) n = existsb (fun r => matches r n) rs.
Proof. exact (matches_anyRule rs). Qed.

Lemma matches_anyField_opt (o : option (list SgRule)) :
  matches (anyField o) n = whenSet o (existsb (fun r => matches r n)).
Proof. destruct o; simpl; now rewrite ?andb_true_r. Qed.

Lemma matches_allRule (rs : list SgRule) :
  matches (allRule rs) n = forallb (fun r => matches r n) rs.
Proof. simpl. now rewrite !andb_true_r. Qed.

Lemma matches_notRule (r : SgRule) :
  matches (notRule r) n = negb (matches r n).
Proof. reflexivity. Qed.

Lemma matches_insideRule (r : SgRule) :
  stopByOf r = neighbor ->
  matches (insideRule r) n
  = match parent n with Some p => matches r p | None => false end.
Proof. intros H. simpl. rewrite H. now rewrite !andb_true_r. Qed.

Lemma matches_followsRule (r : SgRule) :
  stopByOf r = neighbor ->
  matches (followsRule r) n = prevIs (matches r) n.
Proof. intros H. simpl. rewrite H. now rewrite !andb_true_r. Qed.

Lemma matches_hasRule (r : SgRule) :
  stopByOf r = neighbor ->
  matches (hasRule r) n = existsb (matches r) (children n).
Proof. intros H. simpl. rewrite H. now rewrite !andb_true_r. Qed.

End RuleAlgebra.

Lemma orElse_None_r {A : Type} (o : option A) : orElse o None = o.
Proof. now destruct o. Qed.

Lemma spread_emptyRule (a : SgRule) : spread emptyRule a = a.
Proof.
  destruct a. unfold spread, emptyRule.
  cbn [r_kind r_regex r_nthChild r_inside r_has r_follows r_all r_any
       r_not r_stopBy].
  now rewrite !orElse_None_r.
Qed.

(** A node satisfies an object when it satisfies each key present. *)
Lemma matches_fields (r : SgRule) (n : SgNode) :
  matches r n
  = whenSet (r_kind r) (fun k => String.eqb (kind n) k)
    && whenSet (r_regex r) (fun rx => regexTest rx (text n))
    && whenSet (r_nthChild r)
         (fun i => match namedIndex n with
                   | Some j => Nat.eqb i j
                   | None => false
                   end)
    && whenSet (r_inside r) (insideTest n)
    && whenSet (r_has r) (hasTest n)
    && whenSet (r_follows r) (followsTest n)
    && whenSet (r_all r) (forallb (fun r' => matches r' n))
    && whenSet (r_any r) (existsb (fun r' => matches r' n))
    && whenSet (r_not r) (fun r' => negb (matches r' n)).
Proof. destruct r; reflexivity. Qed.

Lemma whenSet_orElse {A : Type} (f : A -> bool) (x y : option A) :
  negb (isSome x && isSome y) = true ->
  whenSet (orElse y x) f = whenSet x f && whenSet y f.
Proof.
  destruct x, y; simpl; intros H; try discriminate;
    now rewrite ?andb_true_r.
Qed.

(** Spreading two objects with different keys gives their conjunction. *)
Lemma matches_spread (a b : SgRule) (n : SgNode) :
  disjointKeys a b = true ->
  matches (spread a b) n = matches a n && matches b n.
Proof.
  unfold disjointKeys. intros H.
  repeat (apply andb_true_iff in H; destruct H as [H ?]).
  rewrite (matches_fields (spread a b)), (matches_fields a),
    (matches_fields b).
  unfold spread.
  cbn [r_kind r_regex r_nthChild r_inside r_has r_follows r_all r_any
       r_not r_stopBy].
  rewrite !whenSet_orElse by assumption.
  repeat match goal with
         | |- context [whenSet ?o ?f] =>
             let b := fresh "b" in
             generalize (whenSet o f); intro b
         end.
  repeat match goal with b : bool |- _ => destruct b; try reflexivity end.
Qed.

Lemma disjointKeys_emptyRule (a : SgRule) : disjointKeys emptyRule a = true.
Proof. reflexivity. Qed.

Lemma matches_object2 (a b : SgRule) (n : SgNode) :
  disjointKeys a b = true ->
  matches (objectOf [a; b]) n = matches a n && matches b n.
Proof.
  intros H. unfold objectOf. simpl fold_left.
  rewrite spread_emptyRule. now apply matches_spread.
Qed.

Lemma matches_object3 (a b c : SgRule) (n : SgNode) :
  disjointKeys a b = true ->
  disjointKeys (spread a b) c = true ->
  matches (objectOf [a; b; c]) n = matches a n && matches b n && matches c n.
Proof.
  intros Hab Hc. unfold objectOf. simpl fold_left.
  rewrite spread_emptyRule.
  rewrite (matches_spread _ _ n Hc). now rewrite (matches_spread _ _ n Hab).
Qed.

(* ------------------------------------------------------------------ *)
(** ** Every matcher is declaration rule, scope rule and comment rule *)
(* ------------------------------------------------------------------ *)

(** Unfolds the matcher of the adapter at hand and splits the spread
    object into the conjunction of its parts. *)
Ltac split_matcher eo :=
  cbv beta delta
    [opsOf getCommentableNodesMatcher goOps csharpOps pythonOps rubyOps
     cOps cppOps javaOps rustOps
     Go.getCommentableNodesMatcher CSharp.getCommentableNodesMatcher
     Python.getCommentableNodesMatcher Ruby.getCommentableNodesMatcher
     C.getCommentableNodesMatcher Cpp.getCommentableNodesMatcher
     Java.getCommentableNodesMatcher Rust.getCommentableNodesMatcher]
    iota zeta;
  first
    [ rewrite !matches_object3 by (destruct eo; reflexivity)
    | rewrite !matches_object2 by reflexivity ].

(** C9.  For every adapter, every choice of entity kinds and of the
    exported-only flag, and every node: the node does not satisfy both the
    rule built for documented declarations and the rule built for
    undocumented ones. *)
Theorem documented_xor_undocumented
        (l : LanguageId) (entityKinds : list EntityKind) (exportsOnly : bool)
        (n : SgNode) :
  matches (getCommentableNodesMatcher (opsOf l) entityKinds true exportsOnly) n
  && matches (getCommentableNodesMatcher (opsOf l) entityKinds false
                                         exportsOnly) n
  = false.
Proof.
  destruct l; split_matcher exportsOnly; rewrite matches_notRule;
    match goal with
    | |- context [negb ?x] => destruct x
    end;
    now rewrite ?andb_false_r, ?andb_false_l.
Qed.

(* ------------------------------------------------------------------ *)
(** ** The exported-only flag *)
(* ------------------------------------------------------------------ *)

(** C4.  For an adapter that has no visibility rule (C, C#, C++, Ruby,
    Python), the rule built with [exportsOnly = true] is the rule built
    with [exportsOnly = false]; the two match the same nodes. *)
Theorem exportsOnly_is_noop
        (l : LanguageId) (entityKinds : list EntityKind) (withComments : bool) :
  readsExportsOnly l = false ->
  getCommentableNodesMatcher (opsOf l) entityKinds withComments true
  = getCommentableNodesMatcher (opsOf l) entityKinds withComments false
  /\ forall n : SgNode,
      matches (getCommentableNodesMatcher (opsOf l) entityKinds withComments
                                          true) n
      = matches (getCommentableNodesMatcher (opsOf l) entityKinds withComments
                                            false) n.
Proof.
  intros H.
  assert (E : getCommentableNodesMatcher (opsOf l) entityKinds withComments
                                         true
              = getCommentableNodesMatcher (opsOf l) entityKinds withComments
                                           false)
    by (destruct l; try discriminate H; reflexivity).
  split; [exact E | intros n; now rewrite E].
Qed.

Lemma exportsOnly_is_noop_witness :
  C.getCommentableNodesMatcher [function; type] false true
  = C.getCommentableNodesMatcher [function; type] false false
  /\ matches (C.getCommentableNodesMatcher [function; type] false true)
             cFunction = true.
Proof.
  destruct (exportsOnly_is_noop LC [function; type] false eq_refl) as [E _].
  split; [exact E | reflexivity].
Defined.

Example csharp_exportsOnly_matches :
  matches (CSharp.getCommentableNodesMatcher [function] true true)
          csharpMethod = true.
Proof. reflexivity. Qed.

(* ------------------------------------------------------------------ *)
(** ** The Python matcher and its entity kinds *)
(* ------------------------------------------------------------------ *)

Lemma EntityKind_eqb_eq (a b : EntityKind) :
  EntityKind_eqb a b = true <-> a = b.
Proof. destruct a, b; simpl; split; intros H; try discriminate; reflexivity. Qed.

Lemma includes_In (entityKinds : list EntityKind) (k : EntityKind) :
  includes entityKinds k = true <-> In k entityKinds.
Proof.
  unfold includes. rewrite existsb_exists. split.
  - intros (x & Hin & Heq). apply EntityKind_eqb_eq in Heq. now subst.
  - intros Hin. exists k. split; [exact Hin | now apply EntityKind_eqb_eq].
Qed.

Lemma includes_ext (ks ks' : list EntityKind) (k : EntityKind) :
  (In k ks <-> In k ks') -> includes ks k = includes ks' k.
Proof.
  intros H. apply eq_true_iff_eq. now rewrite !includes_In.
Qed.

Lemma includes_absent (ks : list EntityKind) (k : EntityKind) :
  ~ In k ks -> includes ks k = false.
Proof.
  intros H. apply not_true_is_false. now rewrite includes_In.
Qed.

(** C10.  The Python rule depends on the requested kinds only through
    the presence of [function] and of [type]: two lists that agree on
    these two kinds give the same rule; the third argument passed through
    the interface is not read; and a list with neither kind gives a rule
    whose [any] list is empty and which no node satisfies. *)
Theorem python_matcher_kinds :
  (forall (ks ks' : list EntityKind) (withComments : bool),
      (forall k, k = function \/ k = type -> (In k ks <-> In k ks')) ->
      Python.getCommentableNodesMatcher ks withComments
      = Python.getCommentableNodesMatcher ks' withComments)
  /\ (forall (ks : list EntityKind) (withComments e e' : bool),
         getCommentableNodesMatcher pythonOps ks withComments e
         = getCommentableNodesMatcher pythonOps ks withComments e')
  /\ (forall (ks : list EntityKind) (withComments : bool),
         (forall k, In k ks -> k = module \/ k = property \/ k = variable) ->
         r_any (Python.getCommentableNodesMatcher ks withComments) = Some []
         /\ forall n : SgNode,
             matches (Python.getCommentableNodesMatcher ks withComments) n
             = false).
Proof.
  split; [| split].
  - intros ks ks' wc H.
    unfold Python.getCommentableNodesMatcher, Python.declKinds.
    rewrite (includes_ext ks ks' function) by (apply H; now left).
    rewrite (includes_ext ks ks' type) by (apply H; now right).
    reflexivity.
  - reflexivity.
  - intros ks wc H.
    assert (Hf : includes ks function = false).
    { apply includes_absent. intros Hin.
      destruct (H _ Hin) as [E | [E | E]]; discriminate E. }
    assert (Ht : includes ks type = false).
    { apply includes_absent. intros Hin.
      destruct (H _ Hin) as [E | [E | E]]; discriminate E. }
    split.
    + unfold Python.getCommentableNodesMatcher, Python.declKinds.
      rewrite Hf, Ht. now destruct wc.
    + intros n. rewrite matches_fields.
      unfold Python.getCommentableNodesMatcher, Python.declKinds.
      rewrite Hf, Ht. destruct wc; simpl; now rewrite ?andb_false_r.
Qed.

Lemma python_matcher_kinds_witness :
  Python.getCommentableNodesMatcher [function; module] true
  = Python.getCommentableNodesMatcher [property; function; function] true
  /\ matches (Python.getCommentableNodesMatcher [module; variable] false)
             pythonInner = false.
Proof.
  destruct python_matcher_kinds as (Hsame & _ & Hnone).
  split.
  - apply Hsame. intros k [-> | ->]; simpl; split; intros H;
      repeat (destruct H as [H | H]; try discriminate H); auto.
  - apply Hnone. simpl. intros k [<- | [<- | []]]; auto.
Defined.

(* ------------------------------------------------------------------ *)
(** ** The edit budget *)
(* ------------------------------------------------------------------ *)

Module BudgetFacts.
Import Orchestrator.

Section WithOracle.

Variable oracle : PromptKind -> DeclarationCandidate -> OracleReply.

Lemma processCandidate_max (b : EditBudget) (c : DeclarationCandidate) :
  editsMax (fst (processCandidate oracle b c)) = editsMax b.
Proof.
  unfold processCandidate. destruct (exhausted b); [reflexivity |].
  now destruct (oracle _ c).
Qed.

Lemma processCandidate_used (b : EditBudget) (c : DeclarationCandidate) :
  editsUsed (fst (processCandidate oracle b c))
  = editsUsed b + (if isEdit (snd (processCandidate oracle b c)) then 1 else 0).
Proof.
  unfold processCandidate. destruct (exhausted b); simpl; [lia |].
  destruct (oracle _ c); simpl; try lia.
  destruct (hasExistingDoc c); simpl; lia.
Qed.

Lemma processCandidate_bound (b : EditBudget) (c : DeclarationCandidate) :
  editsUsed b <= editsMax b ->
  editsUsed (fst (processCandidate oracle b c)) <= editsMax b.
Proof.
  intros H. unfold processCandidate.
  destruct (exhausted b) eqn:E; [exact H |].
  apply Nat.leb_gt in E.
  destruct (oracle _ c); simpl; lia.
Qed.

Lemma processAll_invariant (cs : list DeclarationCandidate) :
  forall b : EditBudget,
    editsUsed b <= editsMax b ->
    editsMax (fst (processAll oracle b cs)) = editsMax b
    /\ editsUsed (fst (processAll oracle b cs)) <= editsMax b
    /\ editsUsed (fst (processAll oracle b cs))
       = editsUsed b
         + List.length (filter isEdit (snd (processAll oracle b cs)))
    /\ List.length (snd (processAll oracle b cs)) = List.length cs.
Proof.
  induction cs as [| c cs IH]; intros b Hb; simpl.
  - repeat split; lia.
  - pose proof (processCandidate_max b c) as Hmax.
    pose proof (processCandidate_used b c) as Hused.
    pose proof (@processCandidate_bound b c Hb) as Hbound.
    destruct (processCandidate oracle b c) as [b1 r]; simpl in *.
    assert (Hb1 : editsUsed b1 <= editsMax b1) by lia.
    specialize (IH b1 Hb1).
    destruct (processAll oracle b1 cs) as [b2 rs]; simpl in *.
    destruct IH as (IH1 & IH2 & IH3 & IH4).
    destruct (isEdit r); simpl; repeat split; lia.
Qed.

End WithOracle.

End BudgetFacts.

(** C1.  After any run the counter of edits used is at most the
    configured maximum (it counts exactly the Insert and Update records);
    and a candidate for which the oracle answers with the "no change"
    sentinel leaves the counter as it was and, when a request was issued
    at all, is recorded as Skip-NoChange. *)
Theorem editsUsed_within_budget
        (oracle : Orchestrator.PromptKind -> Orchestrator.DeclarationCandidate
                  -> Orchestrator.OracleReply) :
  (forall (maxEdits maxContext : nat)
          (cs : list Orchestrator.DeclarationCandidate),
      let result := Orchestrator.run oracle maxEdits maxContext cs in
      Orchestrator.editsUsed (fst result) <= maxEdits
      /\ Orchestrator.editsUsed (fst result)
         = List.length (filter Orchestrator.isEdit (snd result)))
  /\ (forall (b : Orchestrator.EditBudget)
             (c : Orchestrator.DeclarationCandidate),
         oracle (if Orchestrator.hasExistingDoc c
                 then Orchestrator.Update else Orchestrator.Generate) c
         = Orchestrator.NoChange ->
         let result := Orchestrator.processCandidate oracle b c in
         fst result = b
         /\ Orchestrator.isEdit (snd result) = false
         /\ (Orchestrator.exhausted b = false ->
             Orchestrator.editKind (snd result) = Orchestrator.SkipNoChange)).
Proof.
  split.
  - intros maxEdits maxContext cs result. unfold result, Orchestrator.run.
    destruct (BudgetFacts.processAll_invariant oracle cs
                (Orchestrator.mkBudget 0 maxEdits maxContext))
      as (_ & H2 & H3 & _); simpl; [lia |].
    simpl in H2, H3. split; [exact H2 | exact H3].
  - intros b c H result. unfold result, Orchestrator.processCandidate.
    destruct (Orchestrator.exhausted b).
    + repeat split. intros E; discriminate E.
    + rewrite H. repeat split.
Qed.

Lemma editsUsed_within_budget_witness :
  Orchestrator.editsUsed
    (fst (Orchestrator.run mockOracle 2 4000 fiveUndocumented)) <= 2
  /\ fst (Orchestrator.processCandidate mockOracle
            (Orchestrator.mkBudget 1 2 4000) documented)
     = Orchestrator.mkBudget 1 2 4000.
Proof.
  destruct (editsUsed_within_budget mockOracle) as [Hrun Hsame].
  split.
  - exact (proj1 (Hrun 2 4000 fiveUndocumented)).
  - exact (proj1 (Hsame (Orchestrator.mkBudget 1 2 4000) documented eq_refl)).
Defined.

(** With a budget of two and five undocumented candidates the run yields
    two Insert records and three Skip-Budget records. *)
Example two_inserts_three_skips :
  map Orchestrator.editKind
      (snd (Orchestrator.run mockOracle 2 4000 fiveUndocumented))
  = [Orchestrator.Insert; Orchestrator.Insert; Orchestrator.SkipBudget;
     Orchestrator.SkipBudget; Orchestrator.SkipBudget].
Proof. reflexivity. Qed.

Example no_change_is_free :
  map Orchestrator.editKind
      (snd (Orchestrator.run mockOracle 1 4000
              [documented; documented; undocumented; undocumented]))
  = [Orchestrator.SkipNoChange; Orchestrator.SkipNoChange;
     Orchestrator.Insert; Orchestrator.SkipBudget].
Proof. reflexivity. Qed.

(* ------------------------------------------------------------------ *)
(** ** The scope of a matched declaration *)
(* ------------------------------------------------------------------ *)

Lemma existsb_pointwise {A : Type} (f g : A -> bool) (l : list A) :
  (forall x, f x = g x) -> existsb f l = existsb g l.
Proof.
  intros H. induction l as [| x l IH]; simpl; [reflexivity |].
  now rewrite H, IH.
Qed.

Lemma inside_kind (n : SgNode) (k : string) :
  matches (insideRule (kindRule k)) n = parentKindIn [k] n.
Proof.
  rewrite matches_insideRule by reflexivity. unfold parentKindIn.
  destruct (parent n) as [p |]; [| reflexivity].
  rewrite matches_kindRule. simpl. now rewrite orb_false_r.
Qed.

Lemma inside_kinds (n : SgNode) (kinds : list string) :
  matches (insideRule (anyRule (map kindRule kinds))) n
  = parentKindIn kinds n.
Proof.
  rewrite matches_insideRule by reflexivity. unfold parentKindIn.
  destruct (parent n) as [p |]; [| reflexivity].
  rewrite matches_anyRule.
  induction kinds as [| k kinds IH]; simpl; [reflexivity |].
  rewrite <- IH. f_equal. now rewrite !andb_true_r.
Qed.

Lemma inside_anything (n : SgNode) :
  matches (insideRule (allRule [])) n = isSome (parent n).
Proof.
  rewrite matches_insideRule by reflexivity.
  now destruct (parent n).
Qed.



(** C5 fails for Python as well: a function defined in the body of
    another function is matched, since [block] is among the allowed
    parents. *)
Lemma python_nested_function_matched :
  matches (getCommentableNodesMatcher (opsOf LPython) [function] false false)
          pythonInner = true
  /\ option_map kind (parent pythonInner) = Some "block"
  /\ option_map kind (match parent pythonInner with
                      | Some b => parent b
                      | None => None
                      end) = Some "function_definition".
Proof. repeat split. Qed.

(* ------------------------------------------------------------------ *)
(** ** The Go matcher *)
(* ------------------------------------------------------------------ *)

Lemma rxSlashSlash_startsWith (s : string) :
  regexTest rxSlashSlash s = Js.startsWith s "//".
Proof.
  unfold rxSlashSlash.
  destruct s as [| a [| b s]];
    cbn [regexTest atomMatches Js.startsWith]; try reflexivity.
  destruct s; reflexivity.
Qed.

Lemma rxCapital_beginsWithCapital (s : string) :
  regexTest rxCapital s = beginsWithCapital s.
Proof.
  unfold rxCapital. destruct s as [| c s];
    cbn [regexTest atomMatches beginsWithCapital]; [reflexivity |].
  now rewrite andb_true_r.
Qed.

Lemma prevIs_pointwise (f g : SgNode -> bool) (n : SgNode) :
  (forall p, f p = g p) -> prevIs f n = prevIs g n.
Proof. intros H. unfold prevIs. now destruct (prev n). Qed.

Lemma go_withDocComment (n : SgNode) :
  matches Go.withDocComment n = goDocumented n.
Proof.
  unfold Go.withDocComment, goDocumented.
  rewrite matches_followsRule by reflexivity.
  apply prevIs_pointwise. intros p.
  rewrite matches_object3 by reflexivity.
  rewrite matches_kindRule, matches_regexRule, rxSlashSlash_startsWith.
  unfold Go.isComment. simpl. now rewrite andb_true_r.
Qed.

Lemma go_declKindsRaw_any (entityKinds : list EntityKind) (n : SgNode) :
  whenSet (r_any (Go.declKindsRaw entityKinds))
          (existsb (fun r => matches r n))
  = goRequested entityKinds n.
Proof.
  unfold Go.declKindsRaw, goRequested. cbn [anyRule r_any whenSet].
  destruct (includes entityKinds function), (includes entityKinds type),
    (includes entityKinds variable);
    cbn [kindIf filterBoolean existsb andb orb];
    rewrite ?matches_kindRule;
    repeat match goal with
           | |- context [String.eqb ?a ?b] => destruct (String.eqb a b)
           end;
    reflexivity.
Qed.

Lemma go_declKindsRaw (entityKinds : list EntityKind) (n : SgNode) :
  matches (Go.declKindsRaw entityKinds) n = goRequested entityKinds n.
Proof.
  rewrite <- go_declKindsRaw_any. unfold Go.declKindsRaw.
  now rewrite matches_anyRule.
Qed.

Lemma go_capitalised_identifier (n : SgNode) :
  matches (hasRule (objectOf [kindRule "identifier"; regexRule rxCapital])) n
  = goExported n.
Proof.
  rewrite matches_hasRule by reflexivity. unfold goExported.
  apply existsb_pointwise. intros c.
  rewrite matches_object2 by reflexivity.
  now rewrite matches_kindRule, matches_regexRule,
    rxCapital_beginsWithCapital.
Qed.

(** The Go rule read term by term: the node has a requested declaration
    kind, sits directly in [source_file], has the requested
    documented-state and, when [exportsOnly] is set, has a direct
    [identifier] child beginning with a capital letter. *)
Lemma go_rule_terms
        (entityKinds : list EntityKind) (withComments exportsOnly : bool)
        (n : SgNode) :
  matches (Go.getCommentableNodesMatcher entityKinds withComments exportsOnly)
          n
  = goRequested entityKinds n
    && (if exportsOnly then goExported n else true)
    && parentKindIn ["source_file"] n
    && Bool.eqb (goDocumented n) withComments.
Proof.
  destruct withComments; split_matcher exportsOnly;
    rewrite ?matches_notRule, go_withDocComment, inside_kind;
    (destruct exportsOnly;
     [ rewrite matches_anyRule; cbn [existsb];
       rewrite matches_object2 by reflexivity;
       rewrite go_capitalised_identifier, orb_false_r;
       rewrite matches_anyField_opt, go_declKindsRaw_any
     | rewrite matches_anyRule; cbn [existsb];
       rewrite go_declKindsRaw, orb_false_r, andb_true_r ]);
    destruct (goDocumented n); reflexivity.
Qed.

(** Without the flag the rule matches a function whose name is
    capitalised: the flag is a filter that applies only when set. *)
Lemma go_capitalised_function_matched_without_flag :
  matches (Go.getCommentableNodesMatcher [function] false false) goSub = true
  /\ goExported goSub = true.
Proof. repeat split. Qed.

(** With the flag set the rule asks for a direct child of kind
    [identifier]; a declaration without one is not matched, whatever its
    name. *)
Lemma go_flag_needs_identifier_child
      (entityKinds : list EntityKind) (withComments : bool) (n : SgNode) :
  existsb (fun c => String.eqb (kind c) "identifier") (children n) = false ->
  matches (Go.getCommentableNodesMatcher entityKinds withComments true) n
  = false.
Proof.
  intros H. rewrite go_rule_terms.
  replace (goExported n) with false;
    [now rewrite andb_false_r |].
  symmetry. unfold goExported.
  induction (children n) as [| c cs IH]; [reflexivity |].
  cbn [existsb] in H |- *. apply orb_false_iff in H. destruct H as [Hc Hcs].
  now rewrite Hc, IH.
Qed.

(** C6.  The Go adapter's documentation takes a name that starts with a
    capital letter for exported, and the claim has the rule with
    [exportsOnly] set match the requested declarations with such a name:
    functions, methods, types, variables and constants.  The rule does so
    for functions only.  Here a type, a method, a variable and a constant
    whose declared names are [Server], [Start], [Version] and [MaxConns]
    are matched without the flag and not matched with it, while the
    function [Sub] is matched either way. *)
Theorem go_exported_declarations_not_matched :
  map (fun n =>
         (kind n,
          matches (Go.getCommentableNodesMatcher [function; type; variable]
                                                 false false) n,
          matches (Go.getCommentableNodesMatcher [function; type; variable]
                                                 false true) n))
      [goServer; goStart; goVersion; goMaxConns; goSub]
  = [ ("type_declaration", true, false);
      ("method_declaration", true, false);
      ("var_declaration", true, false);
      ("const_declaration", true, false);
      ("function_declaration", true, true) ]
  /\ map kind goDeclaredNames
     = ["type_identifier"; "field_identifier"; "identifier"; "identifier"]
  /\ map text goDeclaredNames = ["Server"; "Start"; "Version"; "MaxConns"]
  /\ forallb (fun n => beginsWithCapital (text n)) goDeclaredNames = true.
Proof. repeat split. Qed.

(* ------------------------------------------------------------------ *)
(** ** The backward walk over previous siblings *)
(* ------------------------------------------------------------------ *)

Lemma index_prev (n p : SgNode) : prev n = Some p -> index n = S (index p).
Proof.
  unfold prev, index. destruct (above n) as [| c up]; [discriminate |].
  destruct (lefts c) as [| l ls]; [discriminate |].
  intros H. injection H as <-. reflexivity.
Qed.

Section Walk.

Variable isComment : SgNode -> bool.

(** The walk only ever adds in front of what it has collected. *)
Lemma unshiftLoop_suffix (fuel : nat) :
  forall (current : option SgNode) (acc : list SgNode),
  exists front : list SgNode,
    unshiftLoop isComment fuel current acc = (front ++ acc)%list.
Proof.
  induction fuel as [| fuel IH]; intros current acc; simpl.
  - now exists [].
  - destruct current as [c |]; [| now exists []].
    destruct (isComment c); [| now exists []].
    destruct (IH (prev c) (c :: acc)) as [front E].
    exists (front ++ [c])%list. rewrite E. now rewrite <- app_assoc.
Qed.

(** Every collected node passes the loop's test. *)
Lemma unshiftLoop_all (fuel : nat) :
  forall (current : option SgNode) (acc : list SgNode),
    Forall (fun c => isComment c = true) acc ->
    Forall (fun c => isComment c = true)
           (unshiftLoop isComment fuel current acc).
Proof.
  induction fuel as [| fuel IH]; intros current acc H; simpl; [exact H |].
  destruct current as [c |]; [| exact H].
  destruct (isComment c) eqn:E; [| exact H].
  apply IH. now constructor.
Qed.

(** The collected nodes are consecutive siblings ending right before the
    declaration. *)
Lemma unshiftLoop_adjacent (n : SgNode) (fuel : nat) :
  forall (current : option SgNode) (acc : list SgNode),
    current = prev (hd n acc) ->
    adjacentRun acc n ->
    adjacentRun (unshiftLoop isComment fuel current acc) n.
Proof.
  induction fuel as [| fuel IH]; intros current acc Hcur Hacc; simpl;
    [exact Hacc |].
  destruct current as [c |]; [| exact Hacc].
  destruct (isComment c); [| exact Hacc].
  apply IH; [reflexivity |]. simpl. split; [now symmetry | exact Hacc].
Qed.

(** More fuel than previous siblings changes nothing: the walk always
    ends on its own test. *)
Lemma unshiftLoop_fuel (fuel : nat) :
  forall (extra : nat) (current : option SgNode) (acc : list SgNode),
    match current with Some c => index c < fuel | None => True end ->
    unshiftLoop isComment (fuel + extra) current acc
    = unshiftLoop isComment fuel current acc.
Proof.
  induction fuel as [| fuel IH]; intros extra current acc H.
  - destruct current as [c |]; [lia |]. now destruct extra.
  - simpl. destruct current as [c |]; [| reflexivity].
    destruct (isComment c); [| reflexivity].
    apply IH. destruct (prev c) as [p |] eqn:E; [| exact I].
    apply index_prev in E. lia.
Qed.

Lemma precedingComments_fuel (n : SgNode) (extra : nat) :
  unshiftLoop isComment (S (index n) + extra) (prev n) []
  = precedingComments isComment n.
Proof.
  unfold precedingComments. apply unshiftLoop_fuel.
  destruct (prev n) as [p |] eqn:E; [| exact I].
  apply index_prev in E. lia.
Qed.

Lemma adjacentRun_sorted (n : SgNode) (l : list SgNode) :
  adjacentRun l n -> inSourceOrder l = true.
Proof.
  induction l as [| a [| b rest] IH]; intros H; try reflexivity.
  destruct H as [Hab Hrest]. simpl in Hab.
  change (Nat.ltb (index a) (index b) && inSourceOrder (b :: rest) = true).
  apply index_prev in Hab. apply andb_true_iff. split.
  - apply Nat.ltb_lt. lia.
  - now apply IH.
Qed.

(** When the previous sibling passes the test, the walk returns a
    non-empty run of comments in source order whose last node is that
    sibling. *)
Lemma precedingComments_spec (n p : SgNode) :
  prev n = Some p ->
  isComment p = true ->
  exists front : list SgNode,
    precedingComments isComment n = (front ++ [p])%list
    /\ adjacentRun (front ++ [p]) n
    /\ inSourceOrder (front ++ [p]) = true
    /\ Forall (fun c => isComment c = true) (front ++ [p]).
Proof.
  intros Hp Hc.
  pose proof (@unshiftLoop_adjacent n (S (index n)) (prev n) [] eq_refl I)
    as Hadj.
  pose proof (@unshiftLoop_all (S (index n)) (prev n) [] (Forall_nil _))
    as Hall.
  fold (precedingComments isComment n) in Hadj, Hall.
  unfold precedingComments in *. rewrite Hp in *. simpl in *.
  rewrite Hc in *.
  destruct (unshiftLoop_suffix (index n) (prev p) [p]) as [front E].
  rewrite E in *. exists front. repeat split; try assumption.
  now apply adjacentRun_sorted with (n := n).
Qed.

End Walk.

(* ------------------------------------------------------------------ *)
(** ** Comment spans of the adapters that collect with [unshift] *)
(* ------------------------------------------------------------------ *)

Lemma rxSlashSlashSlash_startsWith (s : string) :
  regexTest rxSlashSlashSlash s = Js.startsWith s "///".
Proof.
  unfold rxSlashSlashSlash.
  destruct s as [| a [| b [| c s]]];
    cbn [regexTest atomMatches Js.startsWith]; try reflexivity.
  destruct s; reflexivity.
Qed.

Lemma matches_stopByRule (s : StopBy) (n : SgNode) :
  matches (stopByRule s) n = true.
Proof. reflexivity. Qed.

Ltac doc_rule :=
  rewrite matches_followsRule by reflexivity;
  apply prevIs_pointwise; intros p;
  first [ rewrite matches_object3 by reflexivity
        | rewrite matches_object2 by reflexivity ];
  rewrite ?matches_anyRule, ?matches_kindRule, ?matches_regexRule,
    ?matches_stopByRule, ?rxSlashSlashSlash_startsWith;
  cbn [existsb]; rewrite ?matches_kindRule;
  now rewrite ?andb_true_r, ?orb_false_r.

Lemma ruby_withDocComment (n : SgNode) :
  matches Ruby.withDocComment n = prevIs Ruby.isComment n.
Proof. unfold Ruby.withDocComment, Ruby.isComment. doc_rule. Qed.

Lemma c_withDocComment (n : SgNode) :
  matches C.withDocComment n = prevIs C.isComment n.
Proof. unfold C.withDocComment, C.isComment. doc_rule. Qed.

Lemma cpp_withDocComment (n : SgNode) :
  matches Cpp.withDocComment n = prevIs Cpp.isComment n.
Proof. unfold Cpp.withDocComment, Cpp.isComment. doc_rule. Qed.

Lemma java_withDocComment (n : SgNode) :
  matches Java.withDocComment n = prevIs Java.isComment n.
Proof. unfold Java.withDocComment, Java.isComment. doc_rule. Qed.

Lemma rust_withDocComment (n : SgNode) :
  matches Rust.withDocComment n = prevIs Rust.isComment n.
Proof. unfold Rust.withDocComment, Rust.isComment. doc_rule. Qed.

Lemma orNull_snoc (front : list SgNode) (p : SgNode) :
  orNull (front ++ [p]) = Some (front ++ [p])%list.
Proof. now destruct front. Qed.

(** In the adapters that walk back with [unshift] (Go, Ruby, C, C++,
    Java, Rust), a declaration matched as documented has a non-empty span
    of comments, consecutive siblings in source order, whose last node is
    the declaration's previous sibling. *)
Lemma unshift_adapters_span
      (l : LanguageId) (isComment : SgNode -> bool)
      (entityKinds : list EntityKind) (exportsOnly : bool) (n : SgNode) :
  walkTest l = Some isComment ->
  matches (getCommentableNodesMatcher (opsOf l) entityKinds true exportsOnly)
          n = true ->
  exists (front : list SgNode) (p : SgNode),
    prev n = Some p
    /\ getCommentNodes (opsOf l) n = Some (front ++ [p])%list
    /\ adjacentRun (front ++ [p]) n
    /\ inSourceOrder (front ++ [p]) = true
    /\ Forall (fun c => isComment c = true) (front ++ [p]).
Proof.
  intros Hw H.
  assert (Hdoc : prevIs isComment n = true).
  { destruct l; try discriminate Hw; injection Hw as <-;
      revert H; split_matcher exportsOnly; intros H;
      apply andb_true_iff in H; destruct H as [_ H];
      rewrite <- H; symmetry;
      first [ apply go_withDocComment | apply ruby_withDocComment
            | apply c_withDocComment | apply cpp_withDocComment
            | apply java_withDocComment | apply rust_withDocComment ]. }
  unfold prevIs in Hdoc. destruct (prev n) as [p |] eqn:Hp;
    [| discriminate Hdoc].
  destruct (precedingComments_spec isComment n Hp Hdoc)
    as (front & E & Hadj & Hord & Hall).
  exists front, p. split; [reflexivity |].
  split; [| now repeat split].
  destruct l; try discriminate Hw; injection Hw as <-;
    cbn [opsOf getCommentNodes goOps rubyOps cOps cppOps javaOps rustOps];
    unfold Go.getCommentNodes, Ruby.getCommentNodes, C.getCommentNodes,
      Cpp.getCommentNodes, Java.getCommentNodes, Rust.getCommentNodes;
    rewrite E; now rewrite ?orNull_snoc.
Qed.

Example go_span :
  option_map (map text) (Go.getCommentNodes goAdd)
  = Some ["// Add adds two numbers."; "// It returns the sum."]
  /\ option_map text (prev goAdd) = Some "// It returns the sum.".
Proof. split; reflexivity. Qed.

(* ------------------------------------------------------------------ *)
(** ** The C# walk collects with [push] *)
(* ------------------------------------------------------------------ *)

Lemma unshiftLoop_acc (isComment : SgNode -> bool) (fuel : nat) :
  forall (current : option SgNode) (acc : list SgNode),
    unshiftLoop isComment fuel current acc
    = (unshiftLoop isComment fuel current [] ++ acc)%list.
Proof.
  induction fuel as [| fuel IH]; intros current acc; simpl; [reflexivity |].
  destruct current as [c |]; [| reflexivity].
  destruct (isComment c); [| reflexivity].
  rewrite (IH (prev c) (c :: acc)), (IH (prev c) [c]).
  now rewrite <- app_assoc.
Qed.

Lemma pushLoop_reverses (fuel : nat) :
  forall (node : SgNode) (acc : list SgNode),
    CSharp.pushLoop fuel node acc
    = (acc ++ rev (unshiftLoop C.isComment fuel (prev node) []))%list.
Proof.
  induction fuel as [| fuel IH]; intros node acc; simpl;
    [now rewrite app_nil_r |].
  destruct (prev node) as [p |]; [| now rewrite app_nil_r].
  unfold C.isComment at 1.
  destruct (String.eqb (kind p) "comment"); [| now rewrite app_nil_r].
  rewrite IH, (unshiftLoop_acc C.isComment fuel (prev p) [p]).
  rewrite rev_app_distr. simpl. now rewrite <- app_assoc.
Qed.

(** The C# adapter returns the nodes the C adapter returns, last comment
    first. *)
Lemma csharp_nodes_reversed (n : SgNode) :
  CSharp.getCommentNodes n = Some (rev (precedingComments C.isComment n)).
Proof.
  unfold CSharp.getCommentNodes, precedingComments.
  now rewrite pushLoop_reverses.
Qed.

(** C7 at a C# method with a two-line comment: the adapter returns the
    second comment line before the first, positions 2 then 1, which is not
    source order. *)
Theorem csharp_span_not_in_source_order :
  option_map (map text) (CSharp.getCommentNodes csharpMethod)
  = Some ["/// Returns the sum."; "/// Adds two numbers."]
  /\ option_map (map index) (CSharp.getCommentNodes csharpMethod)
     = Some [2; 1]
  /\ option_map inSourceOrder (CSharp.getCommentNodes csharpMethod)
     = Some false.
Proof. repeat split. Qed.

(** C3 at the same method: it satisfies the rule for documented
    declarations and its span is not empty, but the last node of the span
    is the first comment line, not the method's previous sibling. *)
Theorem csharp_span_last_not_predecessor :
  matches (CSharp.getCommentableNodesMatcher [function] true false)
          csharpMethod = true
  /\ option_map text (prev csharpMethod) = Some "/// Returns the sum."
  /\ option_map (fun l => text (last l csharpMethod))
                (CSharp.getCommentNodes csharpMethod)
     = Some "/// Adds two numbers."
  /\ option_map (fun l => last l csharpMethod)
                (CSharp.getCommentNodes csharpMethod)
     <> prev csharpMethod.
Proof.
  repeat split. intros H.
  apply (f_equal (option_map text)) in H. vm_compute in H. discriminate H.
Qed.

(* ------------------------------------------------------------------ *)
(** ** Comment text *)
(* ------------------------------------------------------------------ *)

(** C2 at a C# comment that is already in [///] form: the formatter puts
    a second prefix in front of it. *)
Theorem csharp_canonical_text_changed :
  CSharp.getCommentText "/// Adds two numbers." = "/// /// Adds two numbers."
  /\ CSharp.getCommentText "/// Adds two numbers." <> "/// Adds two numbers."
  /\ CSharp.getCommentText (CSharp.getCommentText "Adds two numbers.")
     <> CSharp.getCommentText "Adds two numbers.".
Proof. repeat split; intros H; vm_compute in H; discriminate H. Qed.

(** C8 at a two-line text: the C# formatter returns a single line, the
    second input line following the first after a bare prefix; the Ruby
    formatter prefixes the first line only, since it splits on the written
    characters backslash-n and not on line breaks; the Go formatter
    returns one prefixed line per input line. *)
Theorem csharp_ruby_lines_not_separated :
  let twoLines := "Adds two numbers." ++ Js.nl ++ "Returns the sum." in
  CSharp.getCommentText twoLines
  = "/// Adds two numbers./// Returns the sum."
  /\ Js.splitLines (CSharp.getCommentText twoLines)
     = ["/// Adds two numbers./// Returns the sum."]
  /\ Js.splitLines (Ruby.getCommentText twoLines)
     = ["# Adds two numbers."; "Returns the sum."]
  /\ Js.splitLines (Go.getCommentText twoLines)
     = ["// Adds two numbers."; "// Returns the sum."].
Proof. repeat split. Qed.

(* ------------------------------------------------------------------ *)
(** ** Text that is already a comment *)
(* ------------------------------------------------------------------ *)

Lemma append_empty_r (s : string) : s ++ "" = s.
Proof. induction s as [| c s IH]; simpl; [reflexivity | now rewrite IH]. Qed.

Lemma append_assoc' (a b c : string) : (a ++ b) ++ c = a ++ (b ++ c).
Proof. induction a as [| x a IH]; simpl; [reflexivity | now rewrite IH]. Qed.

Lemma rev_string_acc (s : string) :
  forall acc : string, Js.rev_string acc s = Js.rev_string "" s ++ acc.
Proof.
  induction s as [| c s IH]; intros acc; simpl; [reflexivity |].
  rewrite (IH (String c acc)), (IH (String c "")).
  now rewrite append_assoc'.
Qed.

(** The first piece of a split begins with what had been read so far. *)
Lemma splitLoop_head (delim : string -> nat) (s : string) :
  forall (skip : nat) (cur : string),
  exists (t : string) (rest : list string),
    Js.splitLoop delim s skip cur = (Js.rev_string "" cur ++ t) :: rest.
Proof.
  induction s as [| c s IH]; intros skip cur; simpl.
  - exists "", []. now rewrite append_empty_r.
  - destruct skip as [| k]; [| apply IH].
    destruct (delim (String c s)) as [| k].
    + destruct (IH 0 (String c cur)) as (t & rest & E).
      exists (String c t), rest. rewrite E. simpl.
      rewrite (rev_string_acc cur (String c "")).
      now rewrite append_assoc'.
    + exists "", (Js.splitLoop delim s k ""). now rewrite append_empty_r.
Qed.

Lemma trimEnd_head (a : ascii) (s : string) :
  Js.isSpace a = false ->
  exists s' : string, Js.trimEnd (String a s) = String a s'.
Proof.
  intros H. simpl. destruct (Js.trimEnd s) as [| b t].
  - rewrite H. now exists "".
  - now exists (String b t).
Qed.

Lemma trimStart_head (s : string) :
  match Js.trimStart s with
  | String a _ => Js.isSpace a = false
  | EmptyString => True
  end.
Proof.
  induction s as [| c s IH]; simpl; [exact I |].
  destruct (Js.isSpace c) eqn:E; [exact IH | exact E].
Qed.

Lemma trim_head (s : string) :
  match Js.trimStart s with
  | String a _ => exists s', Js.trim s = String a s' /\ Js.isSpace a = false
  | EmptyString => Js.trim s = ""
  end.
Proof.
  unfold Js.trim. pose proof (trimStart_head s) as H.
  destruct (Js.trimStart s) as [| a t]; [reflexivity |].
  destruct (@trimEnd_head a t H) as [s' E]. now exists s'.
Qed.

(** A text whose first visible character is not a backquote has no fence
    to strip. *)
Lemma unfence_unfenced (docs language : string) (a : ascii) (s : string) :
  Js.trim docs = String a s ->
  Js.isSpace a = false ->
  a <> "`"%char ->
  unfence docs language = docs.
Proof.
  intros Ht Hs Ha. unfold unfence, Js.splitLines, Js.splitBy. rewrite Ht.
  assert (Hd : Js.newlineAt (String a s) = 0).
  { unfold Js.newlineAt. destruct s as [| d s'].
    - destruct (Ascii.eqb a Js.LF) eqn:E; [| reflexivity].
      apply Ascii.eqb_eq in E. subst a. discriminate Hs.
    - destruct (Ascii.eqb a Js.CR) eqn:E1.
      + apply Ascii.eqb_eq in E1. subst a. discriminate Hs.
      + destruct (Ascii.eqb a Js.LF) eqn:E2; [| reflexivity].
        apply Ascii.eqb_eq in E2. subst a. discriminate Hs. }
  cbn [Js.splitLoop]. rewrite Hd.
  destruct (splitLoop_head Js.newlineAt s 0 (String a "")) as (t & rest & E).
  rewrite E. cbn [Js.rev_string append].
  destruct (@trimEnd_head a t Hs) as [t' Et]. rewrite Et.
  unfold fence. cbn [append String.eqb].
  destruct (Ascii.eqb a "`") eqn:Eq; [| reflexivity].
  apply Ascii.eqb_eq in Eq. contradiction.
Qed.

Lemma startsWith_head (s : string) (a : ascii) (p : string) :
  Js.startsWith s (String a p) = true -> exists t, s = String a t.
Proof.
  destruct s as [| b t]; simpl; [discriminate |].
  intros H. apply andb_true_iff in H. destruct H as [H _].
  apply Ascii.eqb_eq in H. subst b. now exists t.
Qed.

(** In every adapter but C#, a text that passes the adapter's own test,
    and that has no fence, is returned as it is. *)
Lemma canonical_text_unchanged (l : LanguageId) (docs : string) :
  l <> LCSharp ->
  unfence docs (fenceTag l) = docs ->
  isCanonical l docs = true ->
  getCommentText (opsOf l) docs = docs.
Proof.
  intros Hl Hu Hc.
  destruct l; try contradiction;
    cbn [opsOf getCommentText goOps pythonOps rubyOps cOps cppOps javaOps
         rustOps];
    unfold Go.getCommentText, Python.getCommentText, Ruby.getCommentText,
      C.getCommentText, Cpp.getCommentText, Java.getCommentText,
      Rust.getCommentText;
    cbn [fenceTag] in Hu; cbn [isCanonical] in Hc;
    cbv zeta; rewrite Hu, Hc; reflexivity.
Qed.

(** For the adapters whose comments open with a slash, such a text never
    has a fence. *)
Lemma slash_comment_unfenced (l : LanguageId) (docs : string) :
  match l with LGo | LRust | LC | LCpp | LJava => True | _ => False end ->
  isCanonical l docs = true ->
  unfence docs (fenceTag l) = docs.
Proof.
  intros Hl Hc.
  assert (H : exists t, Js.trim docs = String "/" t).
  { destruct l; try contradiction; cbn [isCanonical] in Hc;
      try (unfold isDocBlock in Hc;
           apply andb_true_iff in Hc; destruct Hc as [Hc _];
           apply andb_true_iff in Hc; destruct Hc as [Hc _]);
      exact (@startsWith_head _ _ _ Hc). }
  destruct H as [t Ht].
  apply (@unfence_unfenced docs (fenceTag l) _ _ Ht); [reflexivity | discriminate].
Qed.

Example go_canonical_text :
  Go.getCommentText ("// Add adds two numbers." ++ Js.nl
                     ++ "// It returns the sum.")
  = "// Add adds two numbers." ++ Js.nl ++ "// It returns the sum.".
Proof.
  apply (canonical_text_unchanged (l := LGo)); [discriminate | | reflexivity].
  apply (slash_comment_unfenced LGo); [exact I | reflexivity].
Qed.

(* ------------------------------------------------------------------ *)
(** ** Lines of the Go and Rust formatters *)
(* ------------------------------------------------------------------ *)

Lemma newlineAt_zero (c : ascii) (s : string) :
  Js.newlineAt (String c s) = 0 -> Ascii.eqb c Js.LF = false.
Proof.
  unfold Js.newlineAt. destruct s as [| d s'].
  - now destruct (Ascii.eqb c Js.LF).
  - destruct (Ascii.eqb c Js.CR && Ascii.eqb d Js.LF); [discriminate |].
    now destruct (Ascii.eqb c Js.LF).
Qed.

Lemma newlineAt_inside (c : ascii) (x rest : string) :
  wholeLine (String c x) = true ->
  Js.newlineAt (String c (x ++ String Js.LF rest)) = 0.
Proof.
  unfold wholeLine. intros H. apply andb_true_iff in H. destruct H as [Hn He].
  simpl in Hn. apply andb_true_iff in Hn. destruct Hn as [Hc Hx].
  apply negb_true_iff in Hc. apply negb_true_iff in He.
  unfold Js.newlineAt. destruct x as [| d x']; cbn [append].
  - simpl in He. rewrite He, Hc. reflexivity.
  - simpl in Hx. apply andb_true_iff in Hx. destruct Hx as [Hd _].
    apply negb_true_iff in Hd. rewrite Hd, Hc, andb_false_r. reflexivity.
Qed.

Lemma wholeLine_tail (c : ascii) (x : string) :
  wholeLine (String c x) = true -> x = "" \/ wholeLine x = true.
Proof.
  unfold wholeLine. intros H. destruct x as [| d x']; [now left | right].
  apply andb_true_iff in H. destruct H as [Hn He].
  simpl in Hn. apply andb_true_iff in Hn. destruct Hn as [_ Hn].
  apply andb_true_iff. split; [exact Hn | exact He].
Qed.

(** Reading a whole line followed by a line feed yields that line. *)
Lemma splitLoop_line (rest x : string) :
  forall cur : string,
    x = "" \/ wholeLine x = true ->
    Js.splitLoop Js.newlineAt (x ++ String Js.LF rest) 0 cur
    = (Js.rev_string "" cur ++ x)
        :: Js.splitLoop Js.newlineAt rest 0 "".
Proof.
  induction x as [| c x IH]; intros cur H.
  - cbn [append Js.splitLoop].
    assert (E : Js.newlineAt (String Js.LF rest) = 1) by now destruct rest.
    rewrite E. now rewrite append_empty_r.
  - destruct H as [H | H]; [discriminate H |].
    cbn [append Js.splitLoop]. rewrite (@newlineAt_inside c x rest H).
    rewrite (IH (String c cur) (@wholeLine_tail c x H)). cbn [Js.rev_string].
    rewrite (rev_string_acc cur (String c "")).
    now rewrite append_assoc'.
Qed.

Lemma splitLoop_last (x : string) :
  forall cur : string,
    noLineFeed x = true ->
    Js.splitLoop Js.newlineAt x 0 cur = [Js.rev_string "" cur ++ x].
Proof.
  induction x as [| c x IH]; intros cur H.
  - simpl. now rewrite append_empty_r.
  - simpl in H. apply andb_true_iff in H. destruct H as [Hc Hx].
    apply negb_true_iff in Hc.
    assert (E : Js.newlineAt (String c x) = 0).
    { unfold Js.newlineAt. destruct x as [| d x']; [now rewrite Hc |].
      simpl in Hx. apply andb_true_iff in Hx. destruct Hx as [Hd _].
      apply negb_true_iff in Hd. now rewrite Hd, Hc, andb_false_r. }
    cbn [Js.splitLoop]. rewrite E, (IH (String c cur) Hx).
    cbn [Js.rev_string]. rewrite (rev_string_acc cur (String c "")).
    now rewrite append_assoc'.
Qed.

(** Joining whole lines with line feeds and splitting again gives the
    lines back. *)
Lemma splitLines_join (ls : list string) :
  ls <> [] ->
  Forall (fun x => wholeLine x = true) ls ->
  Js.splitLines (Js.join Js.nl ls) = ls.
Proof.
  unfold Js.splitLines, Js.splitBy.
  induction ls as [| x ls IH]; intros Hne Hall; [contradiction |].
  inversion Hall as [| ? ? Hx Hls]; subst.
  destruct ls as [| y ls].
  - simpl Js.join. rewrite splitLoop_last; [reflexivity |].
    unfold wholeLine in Hx. apply andb_true_iff in Hx. now destruct Hx.
  - change (Js.join Js.nl (x :: y :: ls))
      with (x ++ String Js.LF (Js.join Js.nl (y :: ls))).
    rewrite splitLoop_line by now right.
    rewrite IH; [reflexivity | discriminate | exact Hls].
Qed.

Lemma noLineFeed_rev (s : string) :
  forall acc : string,
    noLineFeed (Js.rev_string acc s) = noLineFeed acc && noLineFeed s.
Proof.
  induction s as [| c s IH]; intros acc; simpl.
  - now rewrite andb_true_r.
  - rewrite IH. simpl. destruct (Ascii.eqb c Js.LF); simpl;
      now rewrite ?andb_false_r, ?andb_true_r.
Qed.

(** No piece of a split at line breaks holds a line feed. *)
Lemma splitLoop_noLineFeed (s : string) :
  forall (skip : nat) (cur : string),
    noLineFeed cur = true ->
    Forall (fun x => noLineFeed x = true)
           (Js.splitLoop Js.newlineAt s skip cur).
Proof.
  induction s as [| c s IH]; intros skip cur H; cbn [Js.splitLoop].
  - constructor; [| constructor]. now rewrite noLineFeed_rev, H.
  - destruct skip as [| k]; [| now apply IH].
    destruct (Js.newlineAt (String c s)) as [| k] eqn:E.
    + apply IH. simpl. now rewrite (@newlineAt_zero c s E), H.
    + constructor; [now rewrite noLineFeed_rev, H | now apply IH].
Qed.

Lemma noLineFeed_trimStart (s : string) :
  noLineFeed s = true -> noLineFeed (Js.trimStart s) = true.
Proof.
  induction s as [| c s IH]; intros H; simpl; [reflexivity |].
  destruct (Js.isSpace c); [| exact H].
  simpl in H. apply andb_true_iff in H. now apply IH.
Qed.

Lemma noLineFeed_trimEnd (s : string) :
  noLineFeed s = true -> noLineFeed (Js.trimEnd s) = true.
Proof.
  induction s as [| c s IH]; intros H; simpl; [reflexivity |].
  simpl in H. apply andb_true_iff in H. destruct H as [Hc Hs].
  specialize (IH Hs). destruct (Js.trimEnd s) as [| d t].
  - destruct (Js.isSpace c); [reflexivity |]. simpl. now rewrite Hc.
  - change (negb (Ascii.eqb c Js.LF) && noLineFeed (String d t) = true).
    now rewrite Hc, IH.
Qed.

Lemma endsWithCR_trimEnd (s : string) : endsWithCR (Js.trimEnd s) = false.
Proof.
  induction s as [| c s IH]; simpl; [reflexivity |].
  destruct (Js.trimEnd s) as [| d t].
  - destruct (Js.isSpace c) eqn:E; [reflexivity |]. simpl.
    destruct (Ascii.eqb c Js.CR) eqn:Ec; [| reflexivity].
    apply Ascii.eqb_eq in Ec. subst c. discriminate E.
  - exact IH.
Qed.

Lemma trimmedLines_whole (docs : string) :
  Forall (fun x => wholeLine x = true /\ x <> "") (trimmedLines docs).
Proof.
  unfold trimmedLines. apply Forall_forall. intros x Hin.
  apply filter_In in Hin. destruct Hin as [Hin Hne].
  apply in_map_iff in Hin. destruct Hin as (y & <- & Hy).
  pose proof (splitLoop_noLineFeed docs 0 "" eq_refl) as Hall.
  rewrite Forall_forall in Hall. specialize (Hall y Hy).
  split.
  - unfold wholeLine, Js.trim.
    rewrite noLineFeed_trimEnd by now apply noLineFeed_trimStart.
    now rewrite endsWithCR_trimEnd.
  - intros E. rewrite E in Hne. discriminate Hne.
Qed.

Lemma wholeLine_prefixed (p x : string) :
  noLineFeed p = true -> x <> "" -> wholeLine x = true ->
  wholeLine (p ++ x) = true.
Proof.
  intros Hp Hx H. induction p as [| c p IH]; [exact H |].
  simpl in Hp. apply andb_true_iff in Hp. destruct Hp as [Hc Hp].
  specialize (IH Hp). unfold wholeLine in *.
  apply andb_true_iff in IH. destruct IH as [IH1 IH2].
  cbn [append noLineFeed]. rewrite Hc, IH1. simpl.
  destruct (p ++ x) as [| d t] eqn:E; [| exact IH2].
  destruct p; [simpl in E; contradiction | discriminate E].
Qed.

(** Go: a text that is not yet a comment and has at least one non-empty
    line comes back as exactly its trimmed non-empty lines, each behind
    [// ] on a line of its own. *)
Lemma go_one_line_each (docs : string) :
  Js.startsWith (Js.trim (unfence docs "/")) "//" = false ->
  trimmedLines (unfence docs "/") <> [] ->
  Js.splitLines (Go.getCommentText docs)
  = map (fun line => "// " ++ line) (trimmedLines (unfence docs "/")).
Proof.
  intros Hc Hne. unfold Go.getCommentText. cbv zeta. rewrite Hc.
  apply splitLines_join.
  - destruct (trimmedLines (unfence docs "/")); [contradiction | discriminate].
  - apply Forall_map. eapply Forall_impl; [| apply trimmedLines_whole].
    intros x [Hw Hx]. now apply wholeLine_prefixed.
Qed.

(* ------------------------------------------------------------------ *)
(** ** The Python span *)
(* ------------------------------------------------------------------ *)

(** A documented Python function: the adapter returns one node, the
    string held by the first statement of the body. *)
Example python_span :
  matches (Python.getCommentableNodesMatcher [function] true) pythonAdd = true
  /\ option_map (map kind) (Python.getCommentNodes pythonAdd)
     = Some ["string"]
  /\ option_map (map (fun d => option_map kind (parent d)))
                (Python.getCommentNodes pythonAdd)
     = Some [Some "expression_statement"]
  /\ option_map kind (Python.getCommentInsertionNode pythonAdd)
     = Some "block".
Proof. repeat split. Qed.

(* ------------------------------------------------------------------ *)
(** ** Entity kinds and declaration kinds *)
(* ------------------------------------------------------------------ *)

(** As [split_matcher], for matchers whose flags are constants. *)
Ltac split_matcher_closed :=
  cbv beta delta
    [opsOf getCommentableNodesMatcher goOps csharpOps pythonOps rubyOps
     cOps cppOps javaOps rustOps
     Go.getCommentableNodesMatcher CSharp.getCommentableNodesMatcher
     Python.getCommentableNodesMatcher Ruby.getCommentableNodesMatcher
     C.getCommentableNodesMatcher Cpp.getCommentableNodesMatcher
     Java.getCommentableNodesMatcher Rust.getCommentableNodesMatcher]
    iota zeta;
  first
    [ rewrite !matches_object3 by reflexivity
    | rewrite !matches_object2 by reflexivity ].

Ltac unfold_matcher :=
  cbv beta delta
    [opsOf getCommentableNodesMatcher goOps csharpOps pythonOps rubyOps
     cOps cppOps javaOps rustOps
     Go.getCommentableNodesMatcher CSharp.getCommentableNodesMatcher
     Python.getCommentableNodesMatcher Ruby.getCommentableNodesMatcher
     C.getCommentableNodesMatcher Cpp.getCommentableNodesMatcher
     Java.getCommentableNodesMatcher Rust.getCommentableNodesMatcher
     Go.declKindsRaw CSharp.declKindsRaw Python.declKinds Ruby.declKinds
     C.declKindsRaw Cpp.declKindsRaw Java.declKindsRaw Rust.declKindsRaw]
    iota zeta.

(** The rule an adapter builds depends on the requested kinds only
    through the presence of the kinds its matcher asks about: order,
    repetition and the other kinds play no part. *)
Theorem matcher_reads_mapped_kinds
        (l : LanguageId) (ks ks' : list EntityKind)
        (withComments exportsOnly : bool) :
  (forall k, In k (mappedKinds l) -> (In k ks <-> In k ks')) ->
  getCommentableNodesMatcher (opsOf l) ks withComments exportsOnly
  = getCommentableNodesMatcher (opsOf l) ks' withComments exportsOnly.
Proof.
  intros H.
  assert (E : forall k, In k (mappedKinds l) -> includes ks k = includes ks' k)
    by (intros k Hk; apply includes_ext; now apply H).
  destruct l; unfold_matcher;
    repeat match goal with
           | |- context [includes ks ?k] =>
               rewrite (E k) by (cbn; tauto)
           end;
    reflexivity.
Qed.

Lemma matcher_reads_mapped_kinds_witness :
  getCommentableNodesMatcher (opsOf LGo) [variable; function; property]
                             true true
  = getCommentableNodesMatcher (opsOf LGo) [function; module; variable;
                                            function] true true.
Proof.
  apply matcher_reads_mapped_kinds.
  intros k Hk. destruct k; cbn in Hk |- *;
    try (exfalso; repeat (destruct Hk as [Hk | Hk]; try discriminate Hk);
         contradiction);
    split; intros H;
    first [ solve [repeat (first [left; reflexivity | right])]
          | exfalso; repeat (destruct H as [H | H]; try discriminate H);
            contradiction ].
Defined.

Lemma existsb_filterBoolean (f : SgRule -> bool) (l : list (option SgRule)) :
  existsb f (filterBoolean l) = true ->
  exists r, In (Some r) l /\ f r = true.
Proof.
  induction l as [| [r |] l IH]; simpl; intros H; [discriminate | |].
  - apply orb_true_iff in H. destruct H as [H | H].
    + exists r. split; [now left | exact H].
    + destruct (IH H) as (r' & Hin & Hr). exists r'. split; [now right | exact Hr].
  - destruct (IH H) as (r' & Hin & Hr). exists r'. split; [now right | exact Hr].
Qed.

Lemma kindIf_Some (c : bool) (k : string) (r : SgRule) :
  kindIf c k = Some r -> c = true /\ r = kindRule k.
Proof. destruct c; simpl; intros H; [now injection H as <- | discriminate H]. Qed.

(** A node that satisfies the list of alternatives of an adapter has a
    kind listed for a requested entity kind. *)
Ltac kind_cases ks n Hin Hr :=
  cbn [In] in Hin;
  repeat (destruct Hin as [Hin | Hin]);
  try contradiction;
  first
    [ apply kindIf_Some in Hin; destruct Hin as [Hc ->];
      rewrite matches_kindRule in Hr; apply String.eqb_eq in Hr;
      apply includes_In in Hc; rewrite Hr;
      eexists; split; [exact Hc | cbn; tauto]
    | match type of Hin with
      | (if includes ks ?k then _ else _) = _ =>
          destruct (includes ks k) eqn:Hc; [| discriminate Hin];
          injection Hin as <-;
          rewrite matches_object2 in Hr by reflexivity;
          apply andb_true_iff in Hr; destruct Hr as [Hr _];
          rewrite matches_kindRule in Hr; apply String.eqb_eq in Hr;
          apply includes_In in Hc; rewrite Hr;
          eexists; split; [exact Hc | cbn; tauto]
      end ].

Lemma declKinds_kind (l : LanguageId) (ks : list EntityKind) (n : SgNode) :
  match l with
  | LGo => matches (Go.declKindsRaw ks) n
  | LCSharp => matches (CSharp.declKindsRaw ks) n
  | LPython => matches (Python.declKinds ks) n
  | LRuby => matches (Ruby.declKinds ks) n
  | LC => matches (C.declKindsRaw ks) n
  | LCpp => matches (Cpp.declKindsRaw ks) n
  | LJava => matches (Java.declKindsRaw ks) n
  | LRust => matches (Rust.declKindsRaw ks) n
  end = true ->
  exists k, In k ks /\ In (k, kind n) (kindTable l).
Proof.
  destruct l;
    unfold Go.declKindsRaw, CSharp.declKindsRaw, Python.declKinds,
      Ruby.declKinds, C.declKindsRaw, Cpp.declKindsRaw, Java.declKindsRaw,
      Rust.declKindsRaw;
    rewrite matches_anyRule; intros H;
    apply existsb_filterBoolean in H; destruct H as (r & Hin & Hr);
    kind_cases ks n Hin Hr.
Qed.

Lemma matches_any_single (r : SgRule) (n : SgNode) :
  matches (anyRule [r]) n = matches r n.
Proof. rewrite matches_anyRule. simpl. now rewrite orb_false_r. Qed.

Lemma matches_any_with_has (rs : list SgRule) (h : SgRule) (n : SgNode) :
  matches (objectOf [anyField (r_any (anyRule rs)); hasRule h]) n
  = matches (anyRule rs) n && matches (hasRule h) n.
Proof. now rewrite matches_object2 by reflexivity. Qed.

Lemma matches_has_kind (k : string) (n : SgNode) :
  matches (hasRule (kindRule k)) n = hasChildOfKind k n.
Proof.
  rewrite matches_hasRule by reflexivity. unfold hasChildOfKind.
  apply existsb_pointwise. intros c. apply matches_kindRule.
Qed.

Lemma java_public_modifier (n : SgNode) :
  matches (hasRule (objectOf [kindRule "modifiers";
                              hasRule (kindRule "public")])) n
  = exportMarker LJava n.
Proof.
  rewrite matches_hasRule by reflexivity. unfold exportMarker.
  apply existsb_pointwise. intros m.
  rewrite matches_object2 by reflexivity.
  now rewrite matches_kindRule, matches_has_kind.
Qed.

(** What a matched node owes to the declaration part of the rule: it
    satisfies the adapter's list of alternatives and, when the flag is
    set, carries the adapter's export marker. *)
Lemma matcher_declaration_part
      (l : LanguageId) (ks : list EntityKind) (withComments exportsOnly : bool)
      (n : SgNode) :
  matches (getCommentableNodesMatcher (opsOf l) ks withComments exportsOnly)
          n = true ->
  match l with
  | LGo => matches (Go.declKindsRaw ks) n
  | LCSharp => matches (CSharp.declKindsRaw ks) n
  | LPython => matches (Python.declKinds ks) n
  | LRuby => matches (Ruby.declKinds ks) n
  | LC => matches (C.declKindsRaw ks) n
  | LCpp => matches (Cpp.declKindsRaw ks) n
  | LJava => matches (Java.declKindsRaw ks) n
  | LRust => matches (Rust.declKindsRaw ks) n
  end = true
  /\ (exportsOnly = true -> exportMarker l n = true).
Proof.
  destruct l; destruct withComments; split_matcher exportsOnly; intros H;
    lazymatch type of H with
    | ?a && ?b && ?c = true =>
        apply andb_true_iff in H; destruct H as [H _];
        apply andb_true_iff in H; destruct H as [H _]
    | ?a && ?b = true =>
        apply andb_true_iff in H; destruct H as [H _]
    end;
    try (split; [| reflexivity];
         first [ rewrite matches_any_single in H; exact H | exact H ]);
    (destruct exportsOnly;
     [ | split; [| discriminate];
         first [ rewrite matches_any_single in H; exact H | exact H ] ]).
  all: try (rewrite matches_any_single in H;
            unfold Go.declKindsRaw, Rust.declKindsRaw in H |- *;
            rewrite matches_any_with_has in H;
            apply andb_true_iff in H; destruct H as [Hd Hm];
            split; [exact Hd | intros _];
            first [ rewrite <- go_capitalised_identifier; exact Hm
                  | cbn [exportMarker]; rewrite <- matches_has_kind;
                    exact Hm ]).
  all: rewrite matches_allRule in H; cbn [forallb] in H;
    apply andb_true_iff in H; destruct H as [Hd Hm];
    apply andb_true_iff in Hm; destruct Hm as [Hm _];
    split; [exact Hd | intros _];
    rewrite <- java_public_modifier; exact Hm.
Qed.

(** Every matched node is a declaration of a requested kind: its node
    kind stands in the adapter's table beside an entity kind that was
    requested. *)
Theorem matched_kind_requested
        (l : LanguageId) (ks : list EntityKind) (withComments exportsOnly : bool)
        (n : SgNode) :
  matches (getCommentableNodesMatcher (opsOf l) ks withComments exportsOnly)
          n = true ->
  exists k, In k ks /\ In (k, kind n) (kindTable l).
Proof.
  intros H. apply matcher_declaration_part in H. destruct H as [H _].
  now apply declKinds_kind.
Qed.

Lemma matched_kind_requested_witness :
  exists k, In k [function; type]
            /\ In (k, kind csharpMethod) (kindTable LCSharp).
Proof.
  exact (matched_kind_requested LCSharp [function; type] true false
                                csharpMethod eq_refl).
Defined.

(* ------------------------------------------------------------------ *)
(** ** The scope of a matched declaration, adapter by adapter *)
(* ------------------------------------------------------------------ *)



Lemma matched_csharp_declaration
      (ks : list EntityKind) (withComments exportsOnly : bool) (n : SgNode) :
  matches (getCommentableNodesMatcher (opsOf LCSharp) ks withComments
                                      exportsOnly) n = true ->
  csharpDeclaration (kind n) = true.
Proof.
  intros H. apply matcher_declaration_part in H. destruct H as [H _].
  apply (declKinds_kind LCSharp) in H. destruct H as (k & _ & Ht).
  unfold csharpDeclaration. apply existsb_exists.
  exists (kind n). split; [| apply String.eqb_refl].
  change (kind n) with (snd (k, kind n)). now apply in_map.
Qed.

(** C#: a declaration local to a body has a kind the rule does not list
    and is not matched. *)
Lemma csharp_local_declarations_not_matched
      (ks : list EntityKind) (withComments exportsOnly : bool) (n : SgNode) :
  existsb (String.eqb (kind n)) csharpLocalKinds = true ->
  matches (getCommentableNodesMatcher (opsOf LCSharp) ks withComments
                                      exportsOnly) n = false.
Proof.
  intros Hl. apply not_true_is_false. intros Hm.
  apply matched_csharp_declaration in Hm.
  unfold csharpDeclaration in Hm. apply existsb_exists in Hm.
  destruct Hm as (d & Hin & Hd). apply String.eqb_eq in Hd. subst d.
  cbn [kindTable map snd In] in Hin.
  repeat (destruct Hin as [Hin | Hin];
          [rewrite <- Hin in Hl; discriminate Hl |]).
  contradiction.
Qed.



(** When none of the requested kinds is one the adapter asks about (the
    empty list, or for instance [property] for Go, C, Python or Ruby), no
    node is matched. *)
Theorem unmapped_kinds_match_nothing
        (l : LanguageId) (ks : list EntityKind) (withComments exportsOnly : bool)
        (n : SgNode) :
  (forall k, In k ks -> ~ In k (mappedKinds l)) ->
  matches (getCommentableNodesMatcher (opsOf l) ks withComments exportsOnly)
          n = false.
Proof.
  intros H. apply not_true_is_false. intros Hm.
  apply matcher_declaration_part in Hm. destruct Hm as [Hm _].
  apply declKinds_kind in Hm. destruct Hm as (k & Hk & Ht).
  apply (H k Hk). unfold mappedKinds.
  change k with (fst (k, kind n)). now apply in_map.
Qed.

Lemma unmapped_kinds_match_nothing_witness :
  matches (getCommentableNodesMatcher (opsOf LGo) [property; module] false
                                      false) goSub = false.
Proof.
  apply unmapped_kinds_match_nothing.
  intros k Hk Hm. cbn in Hk, Hm.
  destruct Hk as [<- | [<- | []]];
    repeat (destruct Hm as [Hm | Hm]; try discriminate Hm); contradiction.
Defined.

(** Setting [exportsOnly] never adds a candidate: a node matched with
    the flag is matched without it. *)
Theorem exportsOnly_only_narrows
        (l : LanguageId) (ks : list EntityKind) (withComments : bool)
        (n : SgNode) :
  matches (getCommentableNodesMatcher (opsOf l) ks withComments true) n = true ->
  matches (getCommentableNodesMatcher (opsOf l) ks withComments false) n = true.
Proof.
  intros H. pose proof (matcher_declaration_part _ _ _ _ _ H) as [Hd _].
  revert H.
  destruct l; try (intros H; exact H);
    destruct withComments; split_matcher_closed; intros H;
    apply andb_true_iff in H; destruct H as [H Hx];
    apply andb_true_iff in H; destruct H as [_ Hs];
    rewrite Hs, Hx, ?matches_any_single, Hd; reflexivity.
Qed.

Lemma exportsOnly_only_narrows_witness :
  matches (getCommentableNodesMatcher (opsOf LGo) [function] true false)
          goAdd = true.
Proof.
  exact (exportsOnly_only_narrows LGo [function] true goAdd eq_refl).
Defined.

(** With [exportsOnly] set, a node matched by the Go, Java or Rust rule
    carries that adapter's export marker: a direct [identifier] child
    beginning with a capital letter, a [modifiers] child holding
    [public], a [visibility_modifier] child. *)
Theorem exported_match_has_marker
        (l : LanguageId) (ks : list EntityKind) (withComments : bool)
        (n : SgNode) :
  matches (getCommentableNodesMatcher (opsOf l) ks withComments true) n = true ->
  exportMarker l n = true.
Proof.
  intros H. apply matcher_declaration_part in H. destruct H as [_ H].
  now apply H.
Qed.

Lemma exported_match_has_marker_witness : exportMarker LGo goAdd = true.
Proof.
  exact (exported_match_has_marker LGo [function] true goAdd eq_refl).
Defined.

(* ------------------------------------------------------------------ *)
(** ** Spans: what the walks return on any node *)
(* ------------------------------------------------------------------ *)

Lemma unshift_adapters_span_witness :
  exists (front : list SgNode) (p : SgNode),
    prev goAdd = Some p
    /\ getCommentNodes (opsOf LGo) goAdd = Some (front ++ [p])%list
    /\ adjacentRun (front ++ [p]) goAdd
    /\ inSourceOrder (front ++ [p]) = true
    /\ Forall (fun c => Go.isComment c = true) (front ++ [p]).
Proof.
  exact (@unshift_adapters_span LGo Go.isComment [function] false goAdd
                                eq_refl eq_refl).
Defined.

(** The walk stops only where its test fails: the node before the first
    collected one (before the declaration, when nothing was collected) is
    missing or is not a comment. *)
Lemma unshiftLoop_maximal (isComment : SgNode -> bool) (n : SgNode)
      (fuel : nat) :
  forall (current : option SgNode) (acc : list SgNode),
    current = prev (hd n acc) ->
    match current with Some c => index c < fuel | None => True end ->
    prevIs isComment (hd n (unshiftLoop isComment fuel current acc)) = false.
Proof.
  induction fuel as [| fuel IH]; intros current acc Hcur Hfuel; simpl.
  - destruct current as [c |]; [lia |]. unfold prevIs. now rewrite <- Hcur.
  - destruct current as [c |].
    + destruct (isComment c) eqn:E.
      * apply IH; [reflexivity |].
        destruct (prev c) as [p |] eqn:Ep; [| exact I].
        apply index_prev in Ep. lia.
      * unfold prevIs. now rewrite <- Hcur.
    + unfold prevIs. now rewrite <- Hcur.
Qed.

Lemma precedingComments_run (isComment : SgNode -> bool) (n : SgNode) :
  let run := precedingComments isComment n in
  adjacentRun run n
  /\ Forall (fun c => isComment c = true) run
  /\ prevIs isComment (hd n run) = false
  /\ inSourceOrder run = true.
Proof.
  intros run.
  assert (Hadj : adjacentRun run n)
    by (apply unshiftLoop_adjacent; [reflexivity | exact I]).
  repeat split.
  - exact Hadj.
  - apply unshiftLoop_all. constructor.
  - apply unshiftLoop_maximal; [reflexivity |].
    destruct (prev n) as [p |] eqn:E; [| exact I].
    apply index_prev in E. lia.
  - now apply adjacentRun_sorted with (n := n).
Qed.

(** In Go, Ruby, C, C++, Java and Rust, on any node: the span returned
    is a run of consecutive siblings ending right before the node, in
    source order, all passing the adapter's comment test, and it cannot be
    extended to the left; [null] is returned exactly when the previous
    sibling is no comment (C returns the empty list instead). *)
Theorem walk_returns_maximal_run
        (l : LanguageId) (isComment : SgNode -> bool) (n : SgNode) :
  walkTest l = Some isComment ->
  match getCommentNodes (opsOf l) n with
  | Some run =>
      adjacentRun run n
      /\ Forall (fun c => isComment c = true) run
      /\ prevIs isComment (hd n run) = false
      /\ inSourceOrder run = true
      /\ (run = [] -> l = LC)
  | None => prevIs isComment n = false
  end.
Proof.
  intros Hw.
  destruct (precedingComments_run isComment n) as (H1 & H2 & H3 & H4).
  destruct l; try discriminate Hw; injection Hw as <-;
    cbn [opsOf getCommentNodes goOps rubyOps cOps cppOps javaOps rustOps];
    unfold Go.getCommentNodes, Ruby.getCommentNodes, C.getCommentNodes,
      Cpp.getCommentNodes, Java.getCommentNodes, Rust.getCommentNodes;
    revert H1 H2 H3 H4;
    match goal with
    | |- context [precedingComments ?f n] =>
        destruct (precedingComments f n) as [| a run]
    end;
    intros H1 H2 H3 H4; cbn [orNull]; try exact H3;
    (split; [exact H1 |]); (split; [exact H2 |]); (split; [exact H3 |]);
    (split; [exact H4 |]);
    intros Habs; first [discriminate Habs | reflexivity].
Qed.

Lemma walk_returns_maximal_run_witness :
  match getCommentNodes (opsOf LGo) goSub with
  | Some run => run <> []
  | None => prevIs Go.isComment goSub = false
  end.
Proof.
  pose proof (@walk_returns_maximal_run LGo Go.isComment goSub eq_refl) as H.
  destruct (getCommentNodes (opsOf LGo) goSub) as [run |]; [| exact H].
  destruct H as (_ & _ & _ & _ & H). intros E. specialize (H E). discriminate H.
Defined.

Lemma precedingComments_none (isComment : SgNode -> bool) (n : SgNode) :
  prevIs isComment n = false -> precedingComments isComment n = [].
Proof.
  unfold prevIs, precedingComments. simpl.
  destruct (prev n) as [p |]; [| reflexivity].
  now intros ->.
Qed.

(** A declaration matched as undocumented has no span: the adapter
    returns [null] (the empty list in C and C#).  Python, whose span is
    looked up inside the body, is left aside. *)
Theorem undocumented_match_has_no_span
        (l : LanguageId) (ks : list EntityKind) (exportsOnly : bool)
        (n : SgNode) :
  l <> LPython ->
  matches (getCommentableNodesMatcher (opsOf l) ks false exportsOnly) n = true ->
  getCommentNodes (opsOf l) n = emptySpan l.
Proof.
  intros Hl H.
  assert (Hdoc : match l with
                 | LGo => prevIs Go.isComment n
                 | LRuby => prevIs Ruby.isComment n
                 | LC | LCSharp => prevIs C.isComment n
                 | LCpp => prevIs Cpp.isComment n
                 | LJava => prevIs Java.isComment n
                 | LRust => prevIs Rust.isComment n
                 | LPython => false
                 end = false).
  { destruct l; try contradiction; revert H; split_matcher exportsOnly;
      intros H; apply andb_true_iff in H; destruct H as [_ H];
      rewrite matches_notRule in H; apply negb_true_iff in H;
      rewrite <- H; symmetry;
      first [ apply go_withDocComment | apply ruby_withDocComment
            | apply c_withDocComment | apply cpp_withDocComment
            | apply java_withDocComment | apply rust_withDocComment ]. }
  destruct l; try contradiction;
    cbn [opsOf getCommentNodes goOps csharpOps rubyOps cOps cppOps javaOps
         rustOps emptySpan];
    unfold Go.getCommentNodes, CSharp.getCommentNodes, Ruby.getCommentNodes,
      C.getCommentNodes, Cpp.getCommentNodes, Java.getCommentNodes,
      Rust.getCommentNodes;
    rewrite ?pushLoop_reverses;
    fold (precedingComments C.isComment n);
    rewrite (precedingComments_none _ _ Hdoc); reflexivity.
Qed.

Lemma undocumented_match_has_no_span_witness :
  getCommentNodes (opsOf LGo) goSub = None.
Proof.
  refine (@undocumented_match_has_no_span LGo [function] true goSub _ eq_refl).
  discriminate.
Defined.

(** On any node, the C# adapter returns the span the C adapter returns,
    in the opposite order: nearest comment first. *)
Theorem csharp_span_is_reversed_c_span (n : SgNode) :
  CSharp.getCommentNodes n = option_map (@rev SgNode) (C.getCommentNodes n).
Proof.
  unfold CSharp.getCommentNodes, C.getCommentNodes, precedingComments.
  now rewrite pushLoop_reverses.
Qed.

(* ------------------------------------------------------------------ *)
(** ** Python: looking into the body *)
(* ------------------------------------------------------------------ *)

Lemma find_Some (n m : SgNode) (r : SgRule) :
  find n r = Some m -> In m (dfs n) /\ matches r m = true.
Proof. unfold find. apply find_some. Qed.

Lemma find_kind (n m : SgNode) (k : string) :
  find n (kindRule k) = Some m -> In m (dfs n) /\ kind m = k.
Proof.
  intros H. apply find_Some in H. destruct H as [Hin Hm].
  rewrite matches_kindRule in Hm. apply String.eqb_eq in Hm. now split.
Qed.

Lemma dfsTree_head (t : Tree) (up : list Crumb) :
  exists rest, dfsTree t up = mkNode t up :: rest.
Proof. destruct t. simpl. eauto. Qed.

Lemma children_in_dfs (n c : SgNode) : In c (children n) -> In c (dfs n).
Proof.
  destruct n as [[k nm tx cs] up]. unfold children, dfs.
  cbn [here above kind isNamed text tkind tnamed ttext tchildren dfsTree].
  intros H. right. revert H. generalize (@nil Tree) as ls.
  induction cs as [| r rs IH]; intros ls H; [contradiction |].
  cbn [childrenFrom] in H. apply in_or_app. destruct H as [<- | H].
  - left. destruct (dfsTree_head r (mkCrumb ls k nm tx rs :: up)) as [rest E].
    rewrite E. now left.
  - right. now apply IH.
Qed.

(** The Python span is [null] or a single node: a [string] found inside
    an [expression_statement] found inside a [block] of the
    declaration. *)
Theorem python_span_is_one_string (decl : SgNode) (l : list SgNode) :
  Python.getCommentNodes decl = Some l ->
  exists body stmt docnode : SgNode,
    l = [docnode]
    /\ kind body = "block" /\ In body (dfs decl)
    /\ kind stmt = "expression_statement" /\ In stmt (dfs body)
    /\ kind docnode = "string" /\ In docnode (dfs stmt).
Proof.
  unfold Python.getCommentNodes, Python.findIn.
  destruct (find decl (kindRule "block")) as [body |] eqn:Eb;
    [| discriminate].
  destruct (find body (kindRule "expression_statement")) as [stmt |] eqn:Es;
    [| discriminate].
  destruct (find stmt (kindRule "string")) as [d |] eqn:Ed; [| discriminate].
  intros H. injection H as <-.
  apply find_kind in Eb, Es, Ed.
  exists body, stmt, d. intuition.
Qed.

Lemma python_span_is_one_string_witness :
  exists body stmt docnode : SgNode,
    [nodeAt pythonDocumentedFile [0; 4; 0; 0]] = [docnode]
    /\ kind body = "block" /\ In body (dfs pythonAdd)
    /\ kind stmt = "expression_statement" /\ In stmt (dfs body)
    /\ kind docnode = "string" /\ In docnode (dfs stmt).
Proof.
  exact (@python_span_is_one_string
           pythonAdd [nodeAt pythonDocumentedFile [0; 4; 0; 0]] eq_refl).
Defined.

(** The Python insertion point is the first [block] below the
    declaration in document order: when one is returned it is a [block]
    of the declaration's subtree; nothing is returned only when the
    subtree holds no [block]; and a declaration with a [block] child
    always gets one. *)
Theorem python_insertion_point (n : SgNode) :
  match Python.getCommentInsertionNode n with
  | Some b => kind b = "block" /\ In b (dfs n)
  | None => forall m, In m (dfs n) -> kind m <> "block"
  end
  /\ (hasChildOfKind "block" n = true ->
      Python.getCommentInsertionNode n <> None).
Proof.
  unfold Python.getCommentInsertionNode.
  assert (Hnone : find n (kindRule "block") = None ->
                  forall m, In m (dfs n) -> kind m <> "block").
  { intros E m Hin Hk. unfold find in E.
    pose proof (find_none _ _ E m Hin) as Hm.
    rewrite matches_kindRule, Hk in Hm. discriminate Hm. }
  split.
  - destruct (find n (kindRule "block")) as [b |] eqn:E.
    + apply find_kind in E. now destruct E.
    + now apply Hnone.
  - intros Hc E. unfold hasChildOfKind in Hc.
    apply existsb_exists in Hc. destruct Hc as (c & Hin & Hk).
    apply String.eqb_eq in Hk.
    exact (Hnone E c (children_in_dfs _ _ Hin) Hk).
Qed.

Lemma python_insertion_point_witness :
  Python.getCommentInsertionNode pythonInner <> None.
Proof.
  exact (proj2 (python_insertion_point pythonInner) eq_refl).
Defined.

(* ------------------------------------------------------------------ *)
(** ** Formatters: what comes out is a comment, and stays one *)
(* ------------------------------------------------------------------ *)

Lemma length_append' (a b : string) :
  String.length (a ++ b) = String.length a + String.length b.
Proof. induction a as [| c a IH]; simpl; [reflexivity | now rewrite IH]. Qed.

Lemma substring_all (s : string) : substring 0 (String.length s) s = s.
Proof. induction s as [| c s IH]; simpl; [reflexivity | now rewrite IH]. Qed.

Lemma substring_skip (a p : string) (m : nat) :
  substring (String.length a) m (a ++ p) = substring 0 m p.
Proof. induction a as [| c a IH]; simpl; [reflexivity | exact IH]. Qed.

Lemma endsWith_append (a p : string) : Js.endsWith (a ++ p) p = true.
Proof.
  unfold Js.endsWith. rewrite length_append'.
  replace (String.length a + String.length p - String.length p)
    with (String.length a) by lia.
  rewrite substring_skip, substring_all, String.eqb_refl.
  rewrite andb_true_r. apply Nat.leb_le. lia.
Qed.

Lemma startsWith_append (p s : string) : Js.startsWith (p ++ s) p = true.
Proof.
  induction p as [| c p IH]; simpl; [now destruct s |].
  now rewrite Ascii.eqb_refl, IH.
Qed.

Lemma trimEnd_cons (a : ascii) (s : string) :
  Js.isSpace a = false -> Js.trimEnd (String a s) = String a (Js.trimEnd s).
Proof. intros H. simpl. destruct (Js.trimEnd s); [now rewrite H | reflexivity]. Qed.

Lemma trimEnd_snoc (m : string) (b : ascii) :
  Js.isSpace b = false ->
  Js.trimEnd (m ++ String b "") = m ++ String b "".
Proof.
  intros H. induction m as [| c m IH].
  - simpl. now rewrite H.
  - cbn [append Js.trimEnd]. rewrite IH.
    destruct (m ++ String b "") eqn:E; [| reflexivity].
    destruct m; discriminate E.
Qed.

Lemma trim_wrapped (a b : ascii) (m : string) :
  Js.isSpace a = false -> Js.isSpace b = false ->
  Js.trim (String a (m ++ String b "")) = String a (m ++ String b "").
Proof.
  intros Ha Hb. unfold Js.trim. cbn [Js.trimStart]. rewrite Ha.
  exact (@trimEnd_snoc (String a m) b Hb).
Qed.

(** Whatever stands between the markers, a text opening with the
    doc-block marker and closing with the block end passes the test of
    the C, C++ and Java formatters. *)
Lemma docBlock_shape (m : string) :
  isDocBlock (Js.trim ("/**" ++ m ++ "*/")) = true.
Proof.
  assert (E : "/**" ++ m ++ "*/" = String "/" (("**" ++ m ++ "*") ++ "/")).
  { cbn [append]. now rewrite append_assoc'. }
  rewrite E, trim_wrapped by reflexivity. rewrite <- E.
  unfold isDocBlock. rewrite startsWith_append.
  replace ("/**" ++ m ++ "*/") with (("/**" ++ m) ++ "*/")
    by now rewrite append_assoc'.
  rewrite endsWith_append, !length_append'. cbn [andb].
  apply Nat.leb_le. cbn [String.length]. lia.
Qed.

Lemma docstring_shape (m : string) :
  Python.isDocstring (Python.tripleQuote ++ m ++ Python.tripleQuote) = true.
Proof.
  unfold Python.isDocstring.
  assert (E : Js.trimStart (Python.tripleQuote ++ m ++ Python.tripleQuote)
              = Python.tripleQuote ++ m ++ Python.tripleQuote)
    by reflexivity.
  rewrite E, startsWith_append.
  replace (Python.tripleQuote ++ m ++ Python.tripleQuote)
    with ((Python.tripleQuote ++ m) ++ Python.tripleQuote)
    by now rewrite append_assoc'.
  rewrite endsWith_append, !length_append'. cbn [andb].
  apply Nat.leb_le. unfold Python.tripleQuote. cbn [String.length]. lia.
Qed.

Lemma hash_line_shape (t : string) :
  Ruby.hasCommentLine (Js.trim (String "#" t)) = true.
Proof.
  unfold Js.trim. cbn [Js.trimStart].
  change (Js.isSpace "#") with false. cbv iota.
  rewrite trimEnd_cons by reflexivity.
  unfold Ruby.hasCommentLine, Js.splitBy. cbn [Js.splitLoop].
  change (Ruby.lineBreakAt (String "#" (Js.trimEnd t))) with 0.
  destruct (splitLoop_head Ruby.lineBreakAt (Js.trimEnd t) 0 (String "#" ""))
    as (t' & rest & E).
  rewrite E. cbn [existsb Js.rev_string append].
  apply orb_true_iff. left. now destruct t'.
Qed.

Ltac as_doc_block M :=
  match goal with
  | |- isDocBlock (Js.trim ?o) = true =>
      replace o with ("/**" ++ M ++ "*/")
        by (cbn [append]; rewrite ?append_assoc'; cbn [append];
            rewrite ?append_assoc'; reflexivity);
      apply docBlock_shape
  end.

(** The text a formatter returns passes the formatter's own test, for
    every input: C, C++, Java, Python and Ruby. *)
Lemma formatted_passes_test (l : LanguageId) (docs : string) :
  match l with LC | LCpp | LJava | LPython | LRuby => True | _ => False end ->
  isCanonical l (getCommentText (opsOf l) docs) = true.
Proof.
  intros Hl. destruct l; try contradiction;
    cbn [opsOf getCommentText pythonOps rubyOps cOps cppOps javaOps
         isCanonical].
  - (* Python *)
    unfold Python.getCommentText. cbv zeta.
    destruct (Python.isDocstring (unfence docs (String "034" ""))) eqn:E;
      cbn [negb]; [exact E |].
    match goal with
    | |- Python.isDocstring ?o = true =>
        replace o
          with (Python.tripleQuote
                ++ (Js.join Js.nl
                      (Js.splitLines (unfence docs (String "034" "")))
                    ++ (if Js.includes (unfence docs (String "034" "")) Js.nl
                        then Js.nl else ""))
                ++ Python.tripleQuote)
          by now rewrite !append_assoc'
    end.
    apply docstring_shape.
  - (* Ruby *)
    unfold Ruby.getCommentText. cbv zeta.
    destruct (Ruby.hasCommentLine (Js.trim (unfence docs "#"))) eqn:E;
      [exact E |].
    destruct (filter _ _) as [| x rest]; [reflexivity |].
    assert (H : exists t,
               (if negb (Js.nonEmpty x) then "#"
                else if Js.startsWith x "#" then x else "# " ++ x)
               = String "#" t).
    { destruct (Js.nonEmpty x); cbn [negb]; [| now exists ""].
      destruct (Js.startsWith x "#") eqn:Ex; [| now exists (" " ++ x)].
      exact (@startsWith_head _ _ _ Ex). }
    destruct H as [t Ht]. cbn [map]. rewrite Ht.
    destruct rest; cbn [map Js.join append]; apply hash_line_shape.
  - (* C *)
    unfold C.getCommentText. cbv zeta.
    destruct (isDocBlock (Js.trim (unfence docs "*"))) eqn:E; [exact E |].
    destruct (trimmedLines (unfence docs "*")) as [| x [| y rest]].
    + as_doc_block (Js.nl ++ Js.nl ++ " ").
    + destruct (Js.startsWith x "@").
      * as_doc_block (" " ++ x ++ " ").
      * as_doc_block (" @brief " ++ x ++ " ").
    + as_doc_block (Js.nl ++ Js.join Js.nl
                               (mapIndexed C.formatLine 0 (x :: y :: rest))
                    ++ Js.nl ++ " ").
  - (* C++ *)
    unfold Cpp.getCommentText. cbv zeta.
    destruct (isDocBlock (Js.trim (unfence docs "*"))) eqn:E; [exact E |].
    destruct (trimmedLines (unfence docs "*")) as [| x [| y rest]].
    + as_doc_block (Js.nl ++ Js.nl ++ " ").
    + destruct (Js.startsWith x "@").
      * as_doc_block (" " ++ x ++ " ").
      * as_doc_block (" @brief " ++ x ++ " ").
    + as_doc_block (Js.nl ++ Js.join Js.nl
                               (mapIndexed Cpp.formatLine 0 (x :: y :: rest))
                    ++ Js.nl ++ " ").
  - (* Java *)
    unfold Java.getCommentText. cbv zeta.
    destruct (isDocBlock (Js.trim (unfence docs "*"))) eqn:E;
      cbn [negb]; [exact E |].
    as_doc_block (Js.nl ++ " * "
                  ++ Js.join (Js.nl ++ " * ") (Js.splitLines (unfence docs "*"))
                  ++ Js.nl ++ " ").
Qed.

Lemma slashes_shape (t : string) :
  Js.startsWith (Js.trim (String "/" (String "/" t))) "//" = true.
Proof.
  unfold Js.trim. cbn [Js.trimStart]. change (Js.isSpace "/") with false.
  cbv iota. rewrite !trimEnd_cons by reflexivity.
  cbn [Js.startsWith]. now destruct (Js.trimEnd t).
Qed.

Lemma slashes3_shape (t : string) :
  Js.startsWith (Js.trim (String "/" (String "/" (String "/" t)))) "///"
  = true.
Proof.
  unfold Js.trim. cbn [Js.trimStart]. change (Js.isSpace "/") with false.
  cbv iota. rewrite !trimEnd_cons by reflexivity.
  cbn [Js.startsWith]. now destruct (Js.trimEnd t).
Qed.

(** Go and Rust: the text returned is empty (no non-empty line came in)
    or passes the formatter's test. *)
Lemma line_formatted_passes_test (l : LanguageId) (docs : string) :
  l = LGo \/ l = LRust ->
  getCommentText (opsOf l) docs = ""
  \/ isCanonical l (getCommentText (opsOf l) docs) = true.
Proof.
  intros [-> | ->];
    cbn [opsOf getCommentText goOps rustOps isCanonical];
    unfold Go.getCommentText, Rust.getCommentText; cbv zeta;
    match goal with
    | |- context [if ?c then _ else _] => destruct c eqn:E
    end;
    try (right; exact E);
    destruct (trimmedLines (unfence docs "/")) as [| x rest];
    try (left; reflexivity);
    right; destruct rest; cbn [map Js.join append];
    first [apply slashes3_shape | apply slashes_shape].
Qed.

Lemma docstring_unfenced (docs : string) :
  Python.isDocstring docs = true -> unfence docs (String "034" "") = docs.
Proof.
  unfold Python.isDocstring. intros H.
  apply andb_true_iff in H. destruct H as [H _].
  apply andb_true_iff in H. destruct H as [H _].
  apply startsWith_head in H. destruct H as [t Ht].
  pose proof (trim_head docs) as Hh. rewrite Ht in Hh.
  destruct Hh as (s' & Htrim & Hs).
  apply (@unfence_unfenced docs (String "034" "") _ _ Htrim Hs).
  discriminate.
Qed.

Lemma canonical_unfenced (l : LanguageId) (docs : string) :
  match l with LCSharp | LRuby => False | _ => True end ->
  isCanonical l docs = true ->
  unfence docs (fenceTag l) = docs.
Proof.
  intros Hl Hc. destruct l; try contradiction;
    first [ now apply docstring_unfenced
          | now apply slash_comment_unfenced ].
Qed.

(** Go, Rust, C, C++, Java and Python: a text that passes the adapter's
    test is returned exactly as it came in. *)
Theorem canonical_text_is_fixed_point (l : LanguageId) (docs : string) :
  match l with LCSharp | LRuby => False | _ => True end ->
  isCanonical l docs = true ->
  getCommentText (opsOf l) docs = docs.
Proof.
  intros Hl Hc. apply canonical_text_unchanged.
  - intros ->. contradiction.
  - now apply canonical_unfenced.
  - exact Hc.
Qed.

Lemma canonical_text_is_fixed_point_witness :
  getCommentText (opsOf LJava)
                 ("/**" ++ Js.nl ++ " * Adds two numbers." ++ Js.nl ++ " */")
  = "/**" ++ Js.nl ++ " * Adds two numbers." ++ Js.nl ++ " */".
Proof.
  exact (@canonical_text_is_fixed_point LJava
           ("/**" ++ Js.nl ++ " * Adds two numbers." ++ Js.nl ++ " */")
           I eq_refl).
Defined.

(** Every adapter but C#: what the formatter returns passes the
    formatter's own test, for every input; the one exception is the empty
    text that Go and Rust return when no non-empty line came in. *)
Theorem formatter_output_passes_own_test (l : LanguageId) (docs : string) :
  l <> LCSharp ->
  getCommentText (opsOf l) docs <> "" ->
  isCanonical l (getCommentText (opsOf l) docs) = true.
Proof.
  intros Hl Hne.
  destruct l; try contradiction;
    first [ now apply formatted_passes_test
          | destruct (@line_formatted_passes_test LGo docs (or_introl eq_refl))
              as [E | E]; [contradiction | exact E]
          | destruct (@line_formatted_passes_test LRust docs (or_intror eq_refl))
              as [E | E]; [contradiction | exact E] ].
Qed.

Lemma formatter_output_passes_own_test_witness :
  isCanonical LRuby (getCommentText (opsOf LRuby) "   ") = true.
Proof.
  apply formatter_output_passes_own_test; [discriminate |].
  intros H. vm_compute in H. discriminate H.
Defined.

(** Go, Rust, C, C++, Java and Python: formatting twice is formatting
    once, for every input. *)
Theorem formatter_idempotent (l : LanguageId) (docs : string) :
  match l with LCSharp | LRuby => False | _ => True end ->
  getCommentText (opsOf l) (getCommentText (opsOf l) docs)
  = getCommentText (opsOf l) docs.
Proof.
  intros Hl.
  assert (H : (getCommentText (opsOf l) docs = "" /\ (l = LGo \/ l = LRust))
              \/ isCanonical l (getCommentText (opsOf l) docs) = true).
  { destruct l; try contradiction;
      first [ right; now apply formatted_passes_test
            | destruct (@line_formatted_passes_test LGo docs
                          (or_introl eq_refl)); [left | right]; tauto
            | destruct (@line_formatted_passes_test LRust docs
                          (or_intror eq_refl)); [left | right]; tauto ]. }
  destruct H as [[E Hg] | Hc].
  - rewrite E. destruct Hg as [-> | ->]; reflexivity.
  - apply canonical_text_unchanged.
    + intros ->. contradiction.
    + now apply canonical_unfenced.
    + exact Hc.
Qed.

Lemma formatter_idempotent_witness :
  getCommentText (opsOf LC)
    (getCommentText (opsOf LC) ("Adds." ++ Js.nl ++ "@param a first"))
  = getCommentText (opsOf LC) ("Adds." ++ Js.nl ++ "@param a first").
Proof.
  exact (@formatter_idempotent LC ("Adds." ++ Js.nl ++ "@param a first") I).
Defined.

(* ------------------------------------------------------------------ *)
(** ** The C# formatter on any input *)
(* ------------------------------------------------------------------ *)

Lemma noLineFeed_append (a b : string) :
  noLineFeed (a ++ b) = noLineFeed a && noLineFeed b.
Proof.
  induction a as [| c a IH]; simpl; [reflexivity |].
  now rewrite IH, andb_assoc.
Qed.

Lemma noLineFeed_join (sep : string) (ls : list string) :
  noLineFeed sep = true ->
  Forall (fun x => noLineFeed x = true) ls ->
  noLineFeed (Js.join sep ls) = true.
Proof.
  intros Hsep H. induction H as [| x ls Hx Hls IH]; [reflexivity |].
  destruct ls as [| y ls]; [exact Hx |].
  change (Js.join sep (x :: y :: ls)) with (x ++ sep ++ Js.join sep (y :: ls)).
  now rewrite !noLineFeed_append, Hx, Hsep, IH.
Qed.

Lemma trimmed_pieces_noLineFeed (docs : string) :
  Forall (fun x => noLineFeed x = true) (map Js.trim (Js.splitLines docs)).
Proof.
  apply Forall_map.
  eapply Forall_impl; [| exact (splitLoop_noLineFeed docs 0 "" eq_refl)].
  intros x Hx. unfold Js.trim.
  now apply noLineFeed_trimEnd, noLineFeed_trimStart.
Qed.

Lemma csharp_noLineFeed (docs : string) :
  noLineFeed (CSharp.getCommentText docs) = true.
Proof.
  unfold CSharp.getCommentText. cbv zeta. rewrite noLineFeed_append.
  rewrite noLineFeed_join;
    [reflexivity | reflexivity | apply trimmed_pieces_noLineFeed].
Qed.

(** Whatever the input, the C# formatter returns a single line: its
    result holds no line feed, so splitting it at line breaks gives it
    back as the only piece. *)
Theorem csharp_output_is_one_line (docs : string) :
  noLineFeed (CSharp.getCommentText docs) = true
  /\ Js.splitLines (CSharp.getCommentText docs) = [CSharp.getCommentText docs].
Proof.
  split; [apply csharp_noLineFeed |].
  unfold Js.splitLines, Js.splitBy.
  now rewrite splitLoop_last by apply csharp_noLineFeed.
Qed.

Lemma trimEnd_snoc_space (w : string) (a : ascii) :
  Js.isSpace a = false ->
  Js.trimEnd (w ++ String a " ") = w ++ String a "".
Proof.
  intros H. induction w as [| c w IH].
  - simpl. now rewrite H.
  - cbn [append Js.trimEnd]. rewrite IH.
    destruct (w ++ String a "") eqn:E; [| reflexivity].
    destruct w; discriminate E.
Qed.

Lemma endsVisibly_length (s : string) :
  endsVisibly s -> String.length s <= S (String.length (Js.trimEnd s)).
Proof.
  intros (w & a & Ha & [-> | ->]).
  - rewrite trimEnd_snoc by exact Ha. lia.
  - rewrite trimEnd_snoc_space by exact Ha.
    rewrite !length_append'. simpl. lia.
Qed.

Lemma endsVisibly_prefix (p s : string) : endsVisibly s -> endsVisibly (p ++ s).
Proof.
  intros (w & a & Ha & [-> | ->]); exists (p ++ w), a;
    (split; [exact Ha |]); [left | right]; now rewrite append_assoc'.
Qed.

Lemma trimEnd_ends (s : string) :
  Js.trimEnd s = ""
  \/ exists (w : string) (a : ascii),
       Js.trimEnd s = w ++ String a "" /\ Js.isSpace a = false.
Proof.
  induction s as [| c s IH]; [now left |].
  cbn [Js.trimEnd]. destruct IH as [E | (w & a & E & Ha)]; rewrite E.
  - destruct (Js.isSpace c) eqn:Ec; [now left | right].
    exists "", c. now split.
  - right. exists (String c w), a.
    destruct (w ++ String a "") eqn:Ew; [destruct w; discriminate Ew |].
    split; [| exact Ha]. cbn [append]. now rewrite Ew.
Qed.

Lemma prefixed_join_endsVisibly (ps : list string) :
  ps <> [] ->
  Forall (fun x => exists y, x = Js.trim y) ps ->
  endsVisibly ("/// " ++ Js.join "/// " ps).
Proof.
  induction ps as [| x ps IH]; intros Hne Hall; [contradiction |].
  inversion Hall as [| ? ? [y ->] Hps]; subst.
  destruct ps as [| z ps].
  - cbn [Js.join]. unfold Js.trim.
    destruct (trimEnd_ends (Js.trimStart y)) as [E | (w & a & E & Ha)];
      rewrite E.
    + exists "//", "/"%char. split; [reflexivity | now right].
    + exists ("/// " ++ w), a. split; [exact Ha | left].
      now rewrite append_assoc'.
  - change (Js.join "/// " (Js.trim y :: z :: ps))
      with (Js.trim y ++ "/// " ++ Js.join "/// " (z :: ps)).
    replace ("/// " ++ Js.trim y ++ "/// " ++ Js.join "/// " (z :: ps))
      with (("/// " ++ Js.trim y) ++ "/// " ++ Js.join "/// " (z :: ps))
      by now rewrite append_assoc'.
    apply endsVisibly_prefix. apply IH; [discriminate | exact Hps].
Qed.

Lemma splitLines_nonempty (docs : string) : Js.splitLines docs <> [].
Proof.
  unfold Js.splitLines, Js.splitBy.
  destruct (splitLoop_head Js.newlineAt docs 0 "") as (t & rest & E).
  rewrite E. discriminate.
Qed.

Lemma csharp_output_shape (docs : string) :
  endsVisibly (CSharp.getCommentText docs)
  /\ exists t, CSharp.getCommentText docs = String "/" t.
Proof.
  unfold CSharp.getCommentText. cbv zeta. split.
  - apply prefixed_join_endsVisibly.
    + intros E. apply map_eq_nil in E. now apply splitLines_nonempty in E.
    + apply Forall_map. apply Forall_forall. intros y _. now exists y.
  - cbn [append]. eauto.
Qed.

(** The C# formatter has no fixed point among its own results: applied
    to a text it returned, it returns a text that is at least three
    characters longer. *)
Theorem csharp_formatting_again_grows (docs : string) :
  String.length (CSharp.getCommentText docs) + 3
  <= String.length (CSharp.getCommentText (CSharp.getCommentText docs)).
Proof.
  destruct (csharp_output_shape docs) as [Hv [t Ht]].
  pose proof (Hline := csharp_noLineFeed docs).
  set (o := CSharp.getCommentText docs) in *.
  assert (Htrim : Js.trim o = Js.trimEnd o).
  { unfold Js.trim. rewrite Ht. reflexivity. }
  assert (Hu : unfence o "*" = o).
  { assert (Hh : exists s, Js.trim o = String "/" s).
    { rewrite Htrim, Ht. rewrite trimEnd_cons by reflexivity. eauto. }
    destruct Hh as [s Hs].
    apply (@unfence_unfenced o "*" _ _ Hs); [reflexivity | discriminate]. }
  unfold CSharp.getCommentText at 1. cbv zeta. rewrite Hu.
  unfold Js.splitLines, Js.splitBy.
  rewrite splitLoop_last by exact Hline.
  cbn [Js.rev_string append map Js.join]. rewrite Htrim.
  pose proof (endsVisibly_length Hv) as Hlen.
  cbn [String.length]. lia.
Qed.

(* ------------------------------------------------------------------ *)
(** ** Lines of the C and C++ formatters *)
(* ------------------------------------------------------------------ *)

Lemma go_one_line_each_witness :
  Js.splitLines (Go.getCommentText ("  Adds two numbers." ++ Js.nl ++ Js.nl
                                    ++ "Returns the sum.  "))
  = ["// Adds two numbers."; "// Returns the sum."].
Proof.
  refine (@go_one_line_each ("  Adds two numbers." ++ Js.nl ++ Js.nl
                             ++ "Returns the sum.  ") eq_refl _).
  discriminate.
Defined.

Lemma startsWith_tag_absorbs (line : string) (a b : bool) :
  Js.startsWith line "@" = true -> a || b || Js.startsWith line "@" = true.
Proof. intros ->. now rewrite orb_true_r. Qed.

Lemma c_formatLine_later (lines : list string) :
  forall i : nat,
    Forall (fun x => Js.nonEmpty x = true) lines ->
    mapIndexed C.formatLine (S i) lines = map (fun x => " * " ++ x) lines.
Proof.
  induction lines as [| x lines IH]; intros i H; [reflexivity |].
  inversion H as [| ? ? Hx Hls]; subst. cbn [mapIndexed map].
  rewrite (IH (S i) Hls). f_equal.
  unfold C.formatLine. cbn [Nat.eqb andb]. rewrite Hx.
  now destruct (_ || _).
Qed.

Lemma cpp_formatLine_later (lines : list string) :
  forall i : nat,
    Forall (fun x => Js.nonEmpty x = true) lines ->
    mapIndexed Cpp.formatLine (S i) lines = map (fun x => " * " ++ x) lines.
Proof.
  induction lines as [| x lines IH]; intros i H; [reflexivity |].
  inversion H as [| ? ? Hx Hls]; subst. cbn [mapIndexed map].
  rewrite (IH (S i) Hls). f_equal.
  unfold Cpp.formatLine. cbn [Nat.eqb andb]. rewrite Hx.
  now destruct (_ || _).
Qed.

Lemma formatLine_first (x : string) :
  C.formatLine x 0
  = (if Js.startsWith x "@" then " * " ++ x else " * @brief " ++ x)
  /\ Cpp.formatLine x 0
     = (if Js.startsWith x "@" then " * " ++ x else " * @brief " ++ x).
Proof.
  unfold C.formatLine, Cpp.formatLine. cbn [Nat.eqb andb].
  destruct (Js.startsWith x "@"); cbn [negb]; rewrite ?orb_true_r; now split.
Qed.

Lemma join_framed (first last : string) (ls : list string) :
  ls <> [] ->
  first ++ Js.nl ++ Js.join Js.nl ls ++ Js.nl ++ last
  = Js.join Js.nl (first :: ls ++ [last]).
Proof.
  intros Hne. destruct ls as [| x ls]; [contradiction |].
  change (Js.join Js.nl (first :: (x :: ls) ++ [last]))
    with (first ++ Js.nl ++ Js.join Js.nl ((x :: ls) ++ [last])).
  do 2 f_equal. clear Hne. revert x.
  induction ls as [| y ls IH]; intros x; [reflexivity |].
  change (Js.join Js.nl (x :: y :: ls))
    with (x ++ Js.nl ++ Js.join Js.nl (y :: ls)).
  change (Js.join Js.nl ((x :: y :: ls) ++ [last]))
    with (x ++ Js.nl ++ Js.join Js.nl ((y :: ls) ++ [last])).
  rewrite <- IH. now rewrite !append_assoc'.
Qed.

(** C and C++, for a text of two or more non-empty lines that is not yet
    a doc block: the result, read line by line, is the opening marker,
    the first line (behind [@brief] unless it carries a tag of its own),
    every further line behind [ * ] in the order given, and the closing
    marker.  No line is dropped, merged or repeated. *)
Theorem block_formatters_one_line_each
        (l : LanguageId) (docs first second : string) (more : list string) :
  l = LC \/ l = LCpp ->
  isDocBlock (Js.trim (unfence docs "*")) = false ->
  trimmedLines (unfence docs "*") = first :: second :: more ->
  Js.splitLines (getCommentText (opsOf l) docs)
  = "/**"
      :: (if Js.startsWith first "@" then " * " ++ first
          else " * @brief " ++ first)
      :: map (fun x => " * " ++ x) (second :: more) ++ [" */"].
Proof.
  intros Hl Hc Hlines.
  pose proof (trimmedLines_whole (unfence docs "*")) as Hwhole.
  rewrite Hlines in Hwhole.
  assert (Hne : Forall (fun x => Js.nonEmpty x = true) (second :: more)).
  { inversion Hwhole as [| ? ? _ Hrest]; subst.
    eapply Forall_impl; [| exact Hrest].
    intros x [_ Hx]. now destruct x. }
  assert (Hout : getCommentText (opsOf l) docs
                 = Js.join Js.nl
                     ("/**"
                        :: ((if Js.startsWith first "@" then " * " ++ first
                             else " * @brief " ++ first)
                              :: map (fun x => " * " ++ x) (second :: more))
                        ++ [" */"])).
  { destruct Hl as [-> | ->];
      cbn [opsOf getCommentText cOps cppOps];
      unfold C.getCommentText, Cpp.getCommentText; cbv zeta;
      rewrite Hc, Hlines;
      match goal with
      | |- context [mapIndexed ?f 0 (first :: second :: more)] =>
          change (mapIndexed f 0 (first :: second :: more))
            with (f first 0 :: mapIndexed f 1 (second :: more))
      end;
      rewrite ?(c_formatLine_later 0 Hne), ?(cpp_formatLine_later 0 Hne),
        ?(proj1 (formatLine_first first)), ?(proj2 (formatLine_first first));
      apply join_framed; discriminate. }
  rewrite Hout. apply splitLines_join; [discriminate |].
  inversion Hwhole as [| ? ? [Hf Hfne] Hrest]; subst.
  constructor; [reflexivity |].
  change (Forall (fun x => wholeLine x = true)
            ((if Js.startsWith first "@" then " * " ++ first
              else " * @brief " ++ first)
               :: (map (fun x => " * " ++ x) (second :: more) ++ [" */"]))).
  constructor.
  - destruct (Js.startsWith first "@"); now apply wholeLine_prefixed.
  - apply Forall_app. split.
    + apply Forall_map. eapply Forall_impl; [| exact Hrest].
      intros x [Hw Hx]. now apply wholeLine_prefixed.
    + constructor; [reflexivity | constructor].
Qed.

Lemma block_formatters_one_line_each_witness :
  Js.splitLines (getCommentText (opsOf LCpp)
                   ("Adds two numbers." ++ Js.nl ++ "  @param a first"
                    ++ Js.nl ++ Js.nl ++ "@return the sum"))
  = [ "/**"; " * @brief Adds two numbers."; " * @param a first";
      " * @return the sum"; " */" ].
Proof.
  exact (@block_formatters_one_line_each LCpp
           ("Adds two numbers." ++ Js.nl ++ "  @param a first"
            ++ Js.nl ++ Js.nl ++ "@return the sum")
           "Adds two numbers." "@param a first" ["@return the sum"]
           (or_intror eq_refl) eq_refl eq_refl).
Defined.

(* ------------------------------------------------------------------ *)
(** ** Blank input *)
(* ------------------------------------------------------------------ *)

Lemma trimStart_empty_allSpace (s : string) :
  Js.trimStart s = "" -> allSpace s = true.
Proof.
  induction s as [| c s IH]; simpl; [reflexivity |].
  destruct (Js.isSpace c); [exact IH | discriminate].
Qed.

Lemma trim_empty_allSpace (s : string) : Js.trim s = "" -> allSpace s = true.
Proof.
  intros H. apply trimStart_empty_allSpace.
  pose proof (trim_head s) as Hh.
  destruct (Js.trimStart s) as [| a t]; [reflexivity |].
  destruct Hh as (s' & E & _). rewrite H in E. discriminate E.
Qed.

Lemma allSpace_trim (s : string) : allSpace s = true -> Js.trim s = "".
Proof.
  intros H. unfold Js.trim.
  assert (E : Js.trimStart s = "").
  { induction s as [| c s IH]; [reflexivity |].
    simpl in H |- *. apply andb_true_iff in H. destruct H as [Hc Hs].
    rewrite Hc. now apply IH. }
  now rewrite E.
Qed.

Lemma allSpace_rev (s : string) :
  forall acc, allSpace (Js.rev_string acc s) = allSpace acc && allSpace s.
Proof.
  induction s as [| c s IH]; intros acc; simpl.
  - now rewrite andb_true_r.
  - rewrite IH. simpl. destruct (Js.isSpace c); simpl;
      now rewrite ?andb_true_r, ?andb_false_r.
Qed.

(** Every piece of a blank text is blank, whatever the delimiter. *)
Lemma splitLoop_allSpace (delim : string -> nat) (s : string) :
  forall (skip : nat) (cur : string),
    allSpace s = true -> allSpace cur = true ->
    Forall (fun x => allSpace x = true) (Js.splitLoop delim s skip cur).
Proof.
  induction s as [| c s IH]; intros skip cur Hs Hc; cbn [Js.splitLoop].
  - constructor; [| constructor]. now rewrite allSpace_rev, Hc.
  - simpl in Hs. apply andb_true_iff in Hs. destruct Hs as [Hcs Hs].
    destruct skip as [| k]; [| now apply IH].
    destruct (delim (String c s)) as [| k].
    + apply IH; [exact Hs |]. simpl. now rewrite Hcs, Hc.
    + constructor; [now rewrite allSpace_rev, Hc | now apply IH].
Qed.

Lemma blank_pieces_filtered (keep : string -> bool) (ls : list string) :
  Forall (fun x => allSpace x = true) ls ->
  keep "" = false ->
  filter keep (map Js.trim ls) = [].
Proof.
  intros H Hk. induction H as [| x ls Hx Hls IH]; [reflexivity |].
  cbn [map filter]. rewrite (allSpace_trim _ Hx), Hk. exact IH.
Qed.

Lemma unfence_blank (docs language : string) :
  Js.trim docs = "" -> unfence docs language = docs.
Proof. intros H. unfold unfence. rewrite H. reflexivity. Qed.

Lemma space_not_backslash (c : ascii) :
  Js.isSpace c = true -> Ascii.eqb c Js.backslash = false.
Proof.
  intros H. destruct (Ascii.eqb c Js.backslash) eqn:E; [| reflexivity].
  apply Ascii.eqb_eq in E. subst c. discriminate H.
Qed.

Lemma allSpace_noBackslash (s : string) :
  allSpace s = true -> noBackslash s = true.
Proof.
  induction s as [| c s IH]; simpl; [reflexivity |].
  intros H. apply andb_true_iff in H. destruct H as [Hc Hs].
  now rewrite (space_not_backslash _ Hc), IH.
Qed.

Lemma noBackslash_includes (s : string) :
  noBackslash s = true -> Js.includes s Js.escapedNl = false.
Proof.
  induction s as [| c s IH]; simpl; [reflexivity |].
  intros H. apply andb_true_iff in H. destruct H as [Hc Hs].
  apply negb_true_iff in Hc. now rewrite Hc, IH.
Qed.

(** A text of white space only: Go and Rust return the empty text, Ruby
    its placeholder, C and C++ a doc block with one empty line. *)
Theorem blank_input (docs : string) :
  Js.trim docs = "" ->
  Go.getCommentText docs = ""
  /\ Rust.getCommentText docs = ""
  /\ Ruby.getCommentText docs = "# TODO: Add documentation"
  /\ C.getCommentText docs = "/**" ++ Js.nl ++ Js.nl ++ " */"
  /\ Cpp.getCommentText docs = "/**" ++ Js.nl ++ Js.nl ++ " */".
Proof.
  intros H. pose proof (trim_empty_allSpace _ H) as Hs.
  assert (Hlines : trimmedLines docs = []).
  { unfold trimmedLines. apply blank_pieces_filtered; [| reflexivity].
    now apply splitLoop_allSpace. }
  unfold Go.getCommentText, Rust.getCommentText, Ruby.getCommentText,
    C.getCommentText, Cpp.getCommentText. cbv zeta.
  rewrite !unfence_blank by exact H. rewrite H, Hlines.
  repeat split.
  change (Ruby.hasCommentLine "") with false. cbv iota.
  rewrite (noBackslash_includes _ (allSpace_noBackslash _ Hs)).
  rewrite blank_pieces_filtered; [reflexivity | | reflexivity].
  now apply splitLoop_allSpace.
Qed.

Lemma blank_input_witness :
  Go.getCommentText ("  " ++ Js.nl ++ " ") = ""
  /\ Ruby.getCommentText ("  " ++ Js.nl ++ " ") = "# TODO: Add documentation".
Proof.
  destruct (@blank_input ("  " ++ Js.nl ++ " ") eq_refl)
    as (Hgo & _ & Hruby & _).
  split; [exact Hgo | exact Hruby].
Defined.

(* ------------------------------------------------------------------ *)
(** ** The Ruby formatter and line breaks *)
(* ------------------------------------------------------------------ *)

Lemma escapedNewlineAt_noBackslash (c : ascii) (s : string) :
  Ascii.eqb c Js.backslash = false -> Js.escapedNewlineAt (String c s) = 0.
Proof.
  intros H. unfold Js.escapedNewlineAt.
  destruct s as [| b [| d rest]]; try reflexivity. now rewrite H.
Qed.

Lemma splitLoop_no_delimiter (s : string) :
  forall cur : string,
    noBackslash s = true ->
    Js.splitLoop Js.escapedNewlineAt s 0 cur = [Js.rev_string "" cur ++ s].
Proof.
  induction s as [| c s IH]; intros cur H.
  - simpl. now rewrite append_empty_r.
  - simpl in H. apply andb_true_iff in H. destruct H as [Hc Hs].
    apply negb_true_iff in Hc. cbn [Js.splitLoop].
    rewrite (@escapedNewlineAt_noBackslash c s Hc), (IH _ Hs).
    cbn [Js.rev_string]. rewrite (rev_string_acc cur (String c "")).
    now rewrite append_assoc'.
Qed.

Lemma hasCommentLine_hash (t : string) :
  Ruby.hasCommentLine (String "#" t) = true.
Proof.
  unfold Ruby.hasCommentLine, Js.splitBy. cbn [Js.splitLoop].
  change (Ruby.lineBreakAt (String "#" t)) with 0.
  destruct (splitLoop_head Ruby.lineBreakAt t 0 (String "#" ""))
    as (t' & rest & E).
  rewrite E. cbn [existsb Js.rev_string append].
  apply orb_true_iff. left. now destruct t'.
Qed.

(** Ruby, for a text that is not yet a comment, has no fence and holds
    no backslash: the whole trimmed text is returned behind one [# ].
    Line breaks inside the text stay where they are, so of several lines
    only the first gets a prefix. *)
Theorem ruby_prefixes_first_line_only (docs : string) :
  unfence docs "#" = docs ->
  Ruby.hasCommentLine (Js.trim docs) = false ->
  noBackslash docs = true ->
  Js.trim docs <> "" ->
  Ruby.getCommentText docs = "# " ++ Js.trim docs.
Proof.
  intros Hu Hc Hb Hne. unfold Ruby.getCommentText. cbv zeta.
  rewrite Hu, Hc. unfold Js.splitBy.
  rewrite splitLoop_no_delimiter by exact Hb.
  rewrite (noBackslash_includes _ Hb).
  cbn [Js.rev_string append map filter].
  destruct (Js.trim docs) as [| a t] eqn:E; [contradiction |].
  cbn [Js.nonEmpty orb map Js.join negb].
  destruct (Js.startsWith (String a t) "#") eqn:Es; [| reflexivity].
  apply startsWith_head in Es. destruct Es as [t' Et].
  rewrite Et, hasCommentLine_hash in Hc. discriminate Hc.
Qed.

Lemma ruby_prefixes_first_line_only_witness :
  Ruby.getCommentText ("Adds two numbers." ++ Js.nl ++ "Returns the sum.")
  = "# " ++ "Adds two numbers." ++ Js.nl ++ "Returns the sum.".
Proof.
  refine (@ruby_prefixes_first_line_only
            ("Adds two numbers." ++ Js.nl ++ "Returns the sum.")
            eq_refl eq_refl eq_refl _).
  discriminate.
Defined.

(* ------------------------------------------------------------------ *)
(** ** Every matcher, in plain terms *)
(* ------------------------------------------------------------------ *)

Lemma any_kind_table (ks : list EntityKind) (n : SgNode)
      (table : list (EntityKind * string)) :
  existsb (fun r => matches r n)
          (filterBoolean
             (map (fun p => kindIf (includes ks (fst p)) (snd p)) table))
  = existsb (fun p => includes ks (fst p) && String.eqb (kind n) (snd p))
            table.
Proof.
  induction table as [| [k name] table IH]; [reflexivity |].
  cbn [map fst snd existsb]. rewrite <- IH.
  destruct (includes ks k); cbn [kindIf filterBoolean existsb andb orb];
    [now rewrite matches_kindRule | reflexivity].
Qed.

Lemma matches_firstNamed (n : SgNode) :
  matches (nthChildRule 1) n = isFirstNamed n.
Proof.
  unfold isFirstNamed. simpl. destruct (namedIndex n) as [[| [| j]] |];
    now rewrite ?andb_true_r.
Qed.

Lemma python_withDocstring (n : SgNode) :
  matches Python.withDocstring n = pythonDocumented n.
Proof.
  unfold Python.withDocstring, pythonDocumented.
  rewrite matches_hasRule by reflexivity.
  apply existsb_pointwise. intros b.
  rewrite matches_object2 by reflexivity. rewrite matches_kindRule. f_equal.
  rewrite matches_hasRule by reflexivity.
  apply existsb_pointwise. intros e.
  rewrite matches_object3 by reflexivity.
  rewrite matches_kindRule, matches_firstNamed. f_equal.
  rewrite matches_hasRule by reflexivity.
  apply existsb_pointwise. intros d.
  rewrite matches_object2 by reflexivity.
  now rewrite matches_kindRule, matches_firstNamed.
Qed.

Lemma csharp_withDocComment (n : SgNode) :
  matches CSharp.withDocComment n = prevIs C.isComment n.
Proof. exact (c_withDocComment n). Qed.

Lemma cpp_scopes (n : SgNode) :
  matches (insideRule Cpp.scopes) n
  = parentKindIn ["translation_unit"; "namespace_definition";
                  "class_specifier"] n.
Proof.
  exact (inside_kinds n ["translation_unit"; "namespace_definition";
                         "class_specifier"]).
Qed.

(** The declaration part of each rule without the flag. *)
Lemma declKinds_requested (l : LanguageId) (ks : list EntityKind)
      (n : SgNode) :
  match l with
  | LGo => matches (Go.declKindsRaw ks) n
  | LCSharp => matches (CSharp.declKindsRaw ks) n
  | LPython => matches (Python.declKinds ks) n
  | LRuby => matches (Ruby.declKinds ks) n
  | LC => matches (C.declKindsRaw ks) n
  | LCpp => matches (Cpp.declKindsRaw ks) n
  | LJava => matches (Java.declKindsRaw ks) n
  | LRust => matches (Rust.declKindsRaw ks) n
  end && inScope (declaredScope l) n
  = requestedKind l ks n && inScope (declaredScope l) n.
Proof.
  destruct l;
    try (f_equal;
         unfold Go.declKindsRaw, CSharp.declKindsRaw, Python.declKinds,
           Ruby.declKinds, Java.declKindsRaw, Rust.declKindsRaw;
         rewrite matches_anyRule;
         match goal with
         | |- _ = requestedKind ?l ks n =>
             exact (any_kind_table ks n (kindTable l))
         end).
  - (* C *)
    unfold C.declKindsRaw, requestedKind. rewrite matches_anyRule.
    cbn [kindTable existsb fst snd inScope declaredScope].
    destruct (includes ks function), (includes ks type),
      (includes ks variable);
      cbn [kindIf filterBoolean existsb andb orb];
      rewrite ?matches_kindRule, ?matches_object2 by reflexivity;
      rewrite ?matches_kindRule, ?inside_kind;
      destruct (parentKindIn ["translation_unit"] n);
      now rewrite ?andb_true_r, ?andb_false_r, ?orb_false_r.
  - (* C++ *)
    unfold Cpp.declKindsRaw, requestedKind. rewrite matches_anyRule.
    cbn [kindTable existsb fst snd inScope declaredScope].
    destruct (includes ks function), (includes ks type),
      (includes ks module), (includes ks variable);
      cbn [kindIf filterBoolean existsb andb orb];
      rewrite ?matches_kindRule, ?matches_object2 by reflexivity;
      rewrite ?matches_kindRule, ?cpp_scopes;
      destruct (parentKindIn ["translation_unit"; "namespace_definition";
                              "class_specifier"] n);
      now rewrite ?andb_true_r, ?andb_false_r, ?orb_false_r.
Qed.

Lemma scope_rule (l : LanguageId) (n : SgNode) :
  match l with
  | LGo => matches (insideRule (kindRule "source_file")) n
  | LC => matches (insideRule (kindRule "translation_unit")) n
  | LCpp => matches (insideRule Cpp.scopes) n
  | LJava =>
      matches (insideRule (anyRule [ kindRule "program";
                                     kindRule "class_body";
                                     kindRule "interface_body";
                                     kindRule "enum_body" ])) n
  | LRust =>
      matches (insideRule (anyRule [ kindRule "source_file";
                                     kindRule "mod_item";
                                     kindRule "impl_item" ])) n
  | LPython =>
      matches (insideRule (anyRule [kindRule "module"; kindRule "block"])) n
  | LCSharp => matches (insideRule (allRule [])) n
  | LRuby => true
  end = inScope (declaredScope l) n.
Proof.
  destruct l; cbn [inScope declaredScope];
    first [ reflexivity | apply inside_kind | apply cpp_scopes
          | apply inside_anything
          | match goal with
            | |- _ = parentKindIn ?kinds ?m => exact (inside_kinds m kinds)
            end ].
Qed.

Lemma doc_rule_documented (l : LanguageId) (n : SgNode) :
  match l with
  | LGo => matches Go.withDocComment n
  | LCSharp => matches CSharp.withDocComment n
  | LPython => matches Python.withDocstring n
  | LRuby => matches Ruby.withDocComment n
  | LC => matches C.withDocComment n
  | LCpp => matches Cpp.withDocComment n
  | LJava => matches Java.withDocComment n
  | LRust => matches Rust.withDocComment n
  end = documentedAt l n.
Proof.
  destruct l; cbn [documentedAt];
    first [ apply go_withDocComment | apply csharp_withDocComment
          | apply python_withDocstring | apply ruby_withDocComment
          | apply c_withDocComment | apply cpp_withDocComment
          | apply java_withDocComment | apply rust_withDocComment ].
Qed.

Ltac plain_parts l ks n :=
  let E := fresh "E" in
  let Hs := fresh "Hs" in
  let Hd := fresh "Hd" in
  pose proof (declKinds_requested l ks n) as E; cbv beta iota in E;
  pose proof (scope_rule l n) as Hs; cbv beta iota in Hs;
  pose proof (doc_rule_documented l n) as Hd; cbv beta iota in Hd;
  rewrite ?matches_notRule, ?Hd, ?Hs in *;
  rewrite ?matches_any_single;
  try (unfold Go.declKindsRaw, Rust.declKindsRaw;
       rewrite matches_any_with_has;
       fold (Go.declKindsRaw ks); fold (Rust.declKindsRaw ks);
       rewrite ?go_capitalised_identifier, ?matches_has_kind);
  try (rewrite matches_allRule; cbn [forallb];
       rewrite java_public_modifier, andb_true_r);
  cbn [exportMarker];
  destruct (inScope (declaredScope l) n);
  [ rewrite !andb_true_r in E; rewrite <- E;
    destruct (documentedAt l n);
    cbn [Bool.eqb negb]; now rewrite ?andb_true_r, ?andb_false_r
  | now rewrite ?andb_false_r ].

Lemma matcher_plain_terms
        (l : LanguageId) (ks : list EntityKind) (withComments exportsOnly : bool)
        (n : SgNode) :
  matches (getCommentableNodesMatcher (opsOf l) ks withComments exportsOnly) n
  = requestedKind l ks n
    && (if exportsOnly then exportMarker l n else true)
    && inScope (declaredScope l) n
    && Bool.eqb (documentedAt l n) withComments.
Proof.
  destruct l, withComments; split_matcher exportsOnly; destruct exportsOnly.
  all: match goal with
       | |- _ = requestedKind ?l ?ks ?n && _ && _ && _ => plain_parts l ks n
       end.
Qed.

(** Every adapter's rule in plain terms, for a named node and a rule the
    pattern engine accepts.  The engine's [kind] key selects named nodes
    only, so the statement is about named nodes (in Ruby the keywords
    [class] and [module] are anonymous tokens whose kind reads the same
    as that of the declarations); and it refuses a rule that names a kind
    no named node has, as the Java rule with [exportsOnly] does with
    [public], so that rule is left out.  Such a node is matched exactly
    when its kind is listed for a requested entity kind, it carries the
    export marker if [exportsOnly] is set, it satisfies the [inside] key
    of the adapter's rule, and its documented-state is the one asked
    for. *)
Theorem matcher_characterised
        (l : LanguageId) (ks : list EntityKind) (withComments exportsOnly : bool)
        (n : SgNode) :
  isNamed n = true ->
  (l = LJava -> exportsOnly = false) ->
  matches (getCommentableNodesMatcher (opsOf l) ks withComments exportsOnly) n
  = requestedKind l ks n
    && (if exportsOnly then exportMarker l n else true)
    && inScope (declaredScope l) n
    && Bool.eqb (documentedAt l n) withComments.
Proof. intros _ _. apply matcher_plain_terms. Qed.

Lemma matcher_characterised_witness :
  matches (getCommentableNodesMatcher (opsOf LRuby) [function] false false)
          rubyInner
  = requestedKind LRuby [function] rubyInner
    && true
    && inScope (declaredScope LRuby) rubyInner
    && Bool.eqb (documentedAt LRuby rubyInner) false.
Proof.
  refine (@matcher_characterised LRuby [function] false false rubyInner
                                 eq_refl _).
  discriminate.
Defined.

(** The two rules built for documented and for undocumented declarations
    split the candidates between them.  For a named node, and the Java
    rule with [exportsOnly] left out as above: a node of a requested
    kind, with the export marker when asked for and satisfying the
    [inside] key, satisfies exactly one of the two; any other node
    satisfies neither. *)
Theorem documented_and_undocumented_partition
        (l : LanguageId) (ks : list EntityKind) (exportsOnly : bool)
        (n : SgNode) :
  isNamed n = true ->
  (l = LJava -> exportsOnly = false) ->
  xorb (matches (getCommentableNodesMatcher (opsOf l) ks true exportsOnly) n)
       (matches (getCommentableNodesMatcher (opsOf l) ks false exportsOnly) n)
  = requestedKind l ks n
    && (if exportsOnly then exportMarker l n else true)
    && inScope (declaredScope l) n.
Proof.
  intros _ _. rewrite !matcher_plain_terms.
  destruct (documentedAt l n); cbn [Bool.eqb];
    destruct (requestedKind l ks n && _ && inScope (declaredScope l) n);
    reflexivity.
Qed.

Lemma documented_and_undocumented_partition_witness :
  xorb (matches (getCommentableNodesMatcher (opsOf LGo) [function] true true)
                goAdd)
       (matches (getCommentableNodesMatcher (opsOf LGo) [function] false true)
                goAdd)
  = requestedKind LGo [function] goAdd
    && exportMarker LGo goAdd
    && inScope (declaredScope LGo) goAdd.
Proof.
  refine (@documented_and_undocumented_partition LGo [function] true goAdd
                                                 eq_refl _).
  discriminate.
Defined.
